(** * claude-canvas: the terminal launcher ([canvas/src/terminal.ts])

    A shallow embedding of [terminal.ts] and the properties of its
    environment detection, its pane registry and its dispatch.

    Modelling conventions.
    - A JavaScript string is a [string]; a character stands for one code
      unit below 256.  [trim] removes the white space and line terminators
      of ECMAScript that lie in that range.
    - [T | null], [T | undefined] and optional fields are [option T];
      truthiness of a string is non-emptiness.
    - The file system is a finite map from paths to contents.  The
      program writes two files of the temporary directory, and these
      writes are taken to succeed.  Inside the [try] block of
      [getCanvasPaneId], reading the file's text may fail and [spawnSync]
      may throw; the [catch] absorbs both.
    - The terminal hosts (tmux, osascript) are outside the program: an
      [Outside] answers every process the program starts, as a function
      of everything the program has done so far (the trace).
    - An [async] function is a computation over the program state that
      either returns or throws.  What an event handler still does after
      its promise is settled happens beside the rest of the run: it is
      kept apart, as pending events, with no place in the trace. *)

From Stdlib Require Import String Ascii ZArith List Bool Lia.
From stdpp Require Import base option gmap strings.
Import ListNotations.

Local Open Scope string_scope.
Local Open Scope Z_scope.
Local Open Scope list_scope.

(** ** JavaScript strings *)

Module Js.

Definition chr (n : nat) : string := String (ascii_of_nat n) EmptyString.

(** The double quote and the backslash, and a line feed. *)
Definition dquote : string := chr 34.
Definition backslash : string := chr 92.
Definition nl : string := chr 10.

(** White space and line terminators (TAB, LF, VT, FF, CR, SP, NBSP). *)
Definition isWhiteSpace (c : ascii) : bool :=
  let n := nat_of_ascii c in
  existsb (Nat.eqb n) [9; 10; 11; 12; 13; 32; 160]%nat.

Definition isEmpty (s : string) : bool :=
  match s with EmptyString => true | String _ _ => false end.

(** Truthiness of a string, and of a string that may be missing. *)
Definition truthy (s : string) : bool := negb (isEmpty s).

Definition truthy_opt (o : option string) : bool :=
  match o with Some s => truthy s | None => false end.

Fixpoint trimStart (s : string) : string :=
  match s with
  | EmptyString => EmptyString
  | String c r => if isWhiteSpace c then trimStart r else s
  end.

Fixpoint trimEnd (s : string) : string :=
  match s with
  | EmptyString => EmptyString
  | String c r =>
      let r' := trimEnd r in
      if isWhiteSpace c && isEmpty r' then EmptyString else String c r'
  end.

(** [String.prototype.trim] *)
Definition trim (s : string) : string := trimEnd (trimStart s).

Fixpoint startsWith (pat s : string) : bool :=
  match pat, s with
  | EmptyString, _ => true
  | String a p, String b r => Ascii.eqb a b && startsWith p r
  | String _ _, EmptyString => false
  end.

Fixpoint skip (n : nat) (s : string) : string :=
  match n, s with
  | O, _ => s
  | S m, String _ r => skip m r
  | S _, EmptyString => EmptyString
  end.

(** [s.replace(pat, rep)] with a string pattern: the first occurrence
    only.  The replacement texts of this program contain no dollar sign. *)
Fixpoint replaceFirst (pat rep s : string) : string :=
  if startsWith pat s then rep +:+ skip (String.length pat) s
  else match s with
       | EmptyString => EmptyString
       | String c r => String c (replaceFirst pat rep r)
       end.

(** [s.replace(/c/g, rep)] for a pattern that matches the one
    character [c]: every occurrence. *)
Fixpoint replaceAllChar (c : ascii) (rep s : string) : string :=
  match s with
  | EmptyString => EmptyString
  | String a r =>
      (if Ascii.eqb a c then rep else String a EmptyString)
        +:+ replaceAllChar c rep r
  end.

End Js.

(** ** Environment detection *)

(** What [process] and [import.meta] expose to the program. *)
Record Process := {
  env_TMUX : option string;
  env_TERM_PROGRAM : option string;
  platform : string;
  import_meta_dir : string
}.

Record TerminalEnvironment := {
  inTmux : bool;
  inGhostty : bool;
  isMacOS : bool;
  summary : string
}.

Definition strEq (a b : string) : bool := String.eqb a b.

Definition optStrEq (o : option string) (b : string) : bool :=
  match o with Some a => strEq a b | None => false end.

Definition detectTerminal (p : Process) : TerminalEnvironment :=
  let inTmux := Js.truthy_opt (env_TMUX p) in
  let inGhostty := optStrEq (env_TERM_PROGRAM p) "ghostty" in
  let isMacOS := strEq (platform p) "darwin" in
  let summary :=
    if inGhostty && isMacOS then "ghostty (macOS)"
    else if inTmux then "tmux"
    else "unsupported" in
  {| inTmux := inTmux; inGhostty := inGhostty; isMacOS := isMacOS;
     summary := summary |}.

(** ** The program state and what lies outside the program *)

(** What the program does to the outside, in order. *)
Inductive Event :=
| EvWrite (path content : string)                (* Bun.write *)
| EvSpawnSync (file : string) (args : list string)  (* spawnSync *)
| EvSpawn (file : string) (args : list string)      (* spawn *)
| EvTimeout (ms : Z).                            (* setTimeout *)

(** The object [spawnSync] returns: [status] is a number or null,
    [stdout] a buffer or null. *)
Record SyncReturns := {
  status : option Z;
  stdout : option string
}.

Inductive SyncAnswer :=
| SyncThrows
| SyncReturn (r : SyncReturns).

(** How a child started with [spawn] ends: a ['close'] event with the exit
    code (null when a signal killed the child) after all of its standard
    output was delivered, or an ['error'] event.  A ['close'] event
    follows the ['error'] event too; it carries no exit code 0, and where
    the promise is settled by then its [resolve] has no effect. *)
Inductive ChildOutcome :=
| Close (code : option Z) (out : string)
| ErrorEvent.

(** The outside answers as a function of the trace so far. *)
Record Outside := {
  host_sync : list Event -> string -> list string -> SyncAnswer;
  host_async : list Event -> string -> list string -> ChildOutcome;
  read_fault : list Event -> string -> bool
}.

(** The files, the trace, and the events that handlers which outlive
    their promise have still to produce. *)
Record State := {
  files : gmap string string;
  trace : list Event;
  pending : list Event
}.

Inductive Exn :=
| IoError (path : string)
| SpawnError
| Error (message : string).

Inductive Result (A : Type) :=
| Returns (a : A)
| Throws (e : Exn).
Arguments Returns {A} a.
Arguments Throws {A} e.

(** An awaited computation. *)
Definition Async (A : Type) : Type := State -> State * Result A.

Definition ret {A} (a : A) : Async A := fun s => (s, Returns a).

Definition throw {A} (e : Exn) : Async A := fun s => (s, Throws e).

Definition bind {A B} (c : Async A) (k : A -> Async B) : Async B :=
  fun s =>
    match c s with
    | (s', Returns a) => k a s'
    | (s', Throws e) => (s', Throws e)
    end.

(** [try { c } catch { h }] *)
Definition tryCatch {A} (c : Async A) (h : Async A) : Async A :=
  fun s =>
    match c s with
    | (s', Returns a) => (s', Returns a)
    | (s', Throws _) => h s'
    end.

Notation "x <- c ;; k" := (bind c (fun x => k))
  (at level 100, c at next level, right associativity).
Notation "c ;;; k" := (bind c (fun _ => k))
  (at level 100, right associativity).

Definition emit (e : Event) (s : State) : State :=
  {| files := files s; trace := trace s ++ [e]; pending := pending s |}.

(** Events left to a handler that runs on after its promise is settled. *)
Definition later (evs : list Event) : Async unit :=
  fun s =>
    ({| files := files s; trace := trace s; pending := pending s ++ evs |},
     Returns tt).

(** [Bun.write(path, content)].  The write succeeds: a write that is
    rejected is outside this model. *)
Definition Bun_write (path content : string) : Async unit :=
  fun s =>
    ({| files := <[path := content]> (files s);
        trace := trace s ++ [EvWrite path content];
        pending := pending s |}, Returns tt).

(** [Bun.file(path).exists()] *)
Definition file_exists (path : string) : Async bool :=
  fun s => (s, Returns (match files s !! path with
                        | Some _ => true
                        | None => false
                        end)).

(** The exit code test [code === 0]. *)
Definition isZero (code : option Z) : bool :=
  match code with Some c => Z.eqb c 0 | None => false end.

(** What the program sits in: its process and the outside. *)
Section Program.

Variable proc : Process.
Variable outside : Outside.

(** [Bun.file(path).text()] *)
Definition file_text (path : string) : Async string :=
  fun s =>
    if read_fault outside (trace s) path then (s, Throws (IoError path))
    else match files s !! path with
         | Some c => (s, Returns c)
         | None => (s, Throws (IoError path))
         end.

Definition spawnSync (file : string) (args : list string)
  : Async SyncReturns :=
  fun s =>
    match host_sync outside (trace s) file args with
    | SyncThrows => (emit (EvSpawnSync file args) s, Throws SpawnError)
    | SyncReturn r => (emit (EvSpawnSync file args) s, Returns r)
    end.

(** [spawn(file, args)], awaited up to the child's ['close'] or
    ['error'] event. *)
Definition spawn (file : string) (args : list string)
  : Async ChildOutcome :=
  fun s =>
    (emit (EvSpawn file args) s,
     Returns (host_async outside (trace s) file args)).

Definition setTimeout (ms : Z) : Async unit :=
  fun s => (emit (EvTimeout ms) s, Returns tt).

(** *** spawnGhostty *)

(** The argument of the second [keystroke]: quotes are replaced first,
    backslashes second. *)
Definition escapeKeystroke (command : string) : string :=
  Js.replaceAllChar (ascii_of_nat 92) (Js.backslash +:+ Js.backslash)
    (Js.replaceAllChar (ascii_of_nat 34) (Js.backslash +:+ Js.dquote)
       command).

Fixpoint spaces (n : nat) : string :=
  match n with
  | O => EmptyString
  | S m => String " "%char (spaces m)
  end.

Definition line (indent : nat) (text : string) : string :=
  spaces indent +:+ text +:+ Js.nl.

Definition quoted (s : string) : string := Js.dquote +:+ s +:+ Js.dquote.

Definition ghosttyScript (command : string) : string :=
  String.concat EmptyString
    [ Js.nl;
      line 6 ("tell application " +:+ quoted "Ghostty");
      line 8 "activate";
      line 6 "end tell";
      line 6 "delay 0.1";
      line 6 ("tell application " +:+ quoted "System Events");
      line 8 ("tell process " +:+ quoted "Ghostty");
      line 10 ("keystroke " +:+ quoted "d" +:+ " using {command down}");
      line 10 "delay 0.3";
      line 10 ("keystroke " +:+ quoted (escapeKeystroke command));
      line 10 "delay 0.05";
      line 10 "key code 36";
      line 8 "end tell";
      line 6 "end tell";
      spaces 4 ].

Definition spawnGhostty (command : string) : Async bool :=
  o <- spawn "osascript" ["-e"; ghosttyScript command] ;;
  match o with
  | Close code _ => ret (isZero code)
  | ErrorEvent => ret false
  end.

(** *** The pane registry *)

Definition CANVAS_PANE_FILE : string := "/tmp/claude-canvas-pane-id".

Definition lookupArgs (paneId : string) : list string :=
  ["display-message"; "-t"; paneId; "-p"; "#{pane_id}"].

(** [result.status === 0 && output === paneId] *)
Definition paneConfirmed (r : SyncReturns) (paneId : string) : bool :=
  isZero (status r) && optStrEq (option_map Js.trim (stdout r)) paneId.

Definition getCanvasPaneId : Async (option string) :=
  tryCatch
    (ex <- file_exists CANVAS_PANE_FILE ;;
     if ex then
       text <- file_text CANVAS_PANE_FILE ;;
       let paneId := Js.trim text in
       result <- spawnSync "tmux" (lookupArgs paneId) ;;
       if paneConfirmed result paneId then ret (Some paneId)
       else (Bun_write CANVAS_PANE_FILE EmptyString ;;; ret None)
     else ret None)
    (ret None).

Definition saveCanvasPaneId (paneId : string) : Async unit :=
  Bun_write CANVAS_PANE_FILE paneId.

(** *** The multiplexer adapter *)

Definition splitArgs (command : string) : list string :=
  ["split-window"; "-h"; "-p"; "67"; "-P"; "-F"; "#{pane_id}"; command].

Definition createNewPane (command : string) : Async bool :=
  o <- spawn "tmux" (splitArgs command) ;;
  match o with
  | Close code paneId =>
      (if isZero code && Js.truthy (Js.trim paneId)
       then saveCanvasPaneId (Js.trim paneId)
       else ret tt) ;;;
      ret (isZero code)
  | ErrorEvent => ret false
  end.

Definition interruptArgs (paneId : string) : list string :=
  ["send-keys"; "-t"; paneId; "C-c"].

Definition runArgs (paneId command : string) : list string :=
  ["send-keys"; "-t"; paneId; "clear && " +:+ command; "Enter"].

(** When the interrupt ends with ['error'] the promise resolves to false
    at once; the ['close'] handler runs all the same, so its wait and its
    typing are still to come, beside the rest of the dispatch. *)
Definition reuseExistingPane (paneId command : string) : Async bool :=
  k <- spawn "tmux" (interruptArgs paneId) ;;
  match k with
  | Close _ _ =>
      setTimeout 150 ;;;
      o <- spawn "tmux" (runArgs paneId command) ;;
      match o with
      | Close code _ => ret (isZero code)
      | ErrorEvent => ret false
      end
  | ErrorEvent =>
      later [EvTimeout 150; EvSpawn "tmux" (runArgs paneId command)] ;;;
      ret false
  end.

Definition spawnTmux (command : string) : Async bool :=
  existingPaneId <- getCanvasPaneId ;;
  if Js.truthy_opt existingPaneId then
    let paneId := default EmptyString existingPaneId in
    reused <- reuseExistingPane paneId command ;;
    if reused then ret true
    else (Bun_write CANVAS_PANE_FILE EmptyString ;;; createNewPane command)
  else createNewPane command.

(** *** spawnCanvas *)

Record SpawnResult := {
  method : string;
  pid : option Z
}.

Record SpawnOptions := {
  socketPath : option string;
  scenario : option string
}.

Definition unsupportedMessage : string :=
  "Canvas requires Ghostty (macOS) or tmux. Please run inside one of these environments.".

Definition runScript : string :=
  Js.replaceFirst "/src" EmptyString (import_meta_dir proc)
    +:+ "/run-canvas.sh".

Definition configFile (id : string) : string :=
  "/tmp/canvas-config-" +:+ id +:+ ".json".

(** [options?.socketPath || `/tmp/canvas-${id}.sock`] *)
Definition socketPathOf (id : string) (options : option SpawnOptions)
  : string :=
  match options ≫= socketPath with
  | Some s => if Js.truthy s then s else "/tmp/canvas-" +:+ id +:+ ".sock"
  | None => "/tmp/canvas-" +:+ id +:+ ".sock"
  end.

(** The command line, once the configuration (if any) is on disk. *)
Definition commandOf (kind id : string) (configJson : option string)
    (options : option SpawnOptions) : string :=
  let command := runScript +:+ " show " +:+ kind +:+ " --id " +:+ id in
  let command :=
    if Js.truthy_opt configJson
    then command +:+ " --config "
           +:+ quoted ("$(cat " +:+ configFile id +:+ ")")
    else command in
  let command := command +:+ " --socket " +:+ socketPathOf id options in
  match options ≫= scenario with
  | Some sc =>
      if Js.truthy sc then command +:+ " --scenario " +:+ sc else command
  | None => command
  end.

(** [if (configJson) { await Bun.write(configFile, configJson) }] *)
Definition writeConfig (id : string) (configJson : option string)
  : Async unit :=
  match configJson with
  | Some json =>
      if Js.truthy json then Bun_write (configFile id) json else ret tt
  | None => ret tt
  end.

Definition spawnCanvas (kind id : string) (configJson : option string)
    (options : option SpawnOptions) : Async SpawnResult :=
  let env := detectTerminal proc in
  writeConfig id configJson ;;;
  let command := commandOf kind id configJson options in
  viaGhostty <- (if inGhostty env && isMacOS env
                 then spawnGhostty command else ret false) ;;
  if viaGhostty then ret {| method := "ghostty"; pid := None |}
  else
    viaTmux <- (if inTmux env then spawnTmux command else ret false) ;;
    if viaTmux then ret {| method := "tmux"; pid := None |}
    else throw (Error unsupportedMessage).

End Program.

(** ** Vocabulary of the statements *)

(** The events a run adds to the trace. *)
Definition added (s s' : State) : list Event :=
  drop (length (trace s)) (trace s').

(** Does the event start the program [file]? *)
Definition starts (file : string) (e : Event) : bool :=
  match e with
  | EvSpawn f _ | EvSpawnSync f _ => strEq f file
  | _ => false
  end.

(** Is the event one of the two [send-keys] of the reuse sequence? *)
Definition isSendKeys (e : Event) : bool :=
  match e with
  | EvSpawn f (a :: _) => strEq f "tmux" && strEq a "send-keys"
  | _ => false
  end.

(** Is the event a request for a new split pane? *)
Definition isSplit (e : Event) : bool :=
  match e with
  | EvSpawn f (a :: _) => strEq f "tmux" && strEq a "split-window"
  | _ => false
  end.

(** Is the event a pane lookup? *)
Definition isLookup (e : Event) : bool :=
  match e with
  | EvSpawnSync f (a :: _) => strEq f "tmux" && strEq a "display-message"
  | _ => false
  end.

(** The registry as the dispatcher sees it after a run. *)
Definition registry (s : State) : option string :=
  files s !! CANVAS_PANE_FILE.

(** A text that is empty or begins with a visible character. *)
Definition headVisible (s : string) : Prop :=
  match s with
  | EmptyString => True
  | String c _ => Js.isWhiteSpace c = false
  end.

(** The escaping in the words of the specification: one pass that puts
    a backslash before every double quote and every backslash and leaves
    every other character alone. *)
Fixpoint specEscape (s : string) : string :=
  match s with
  | EmptyString => EmptyString
  | String c r =>
      (if Ascii.eqb c (ascii_of_nat 34) || Ascii.eqb c (ascii_of_nat 92)
       then String (ascii_of_nat 92) (String c EmptyString)
       else String c EmptyString) +:+ specEscape r
  end.

(** Is the event the start of a process? *)
Definition isProcess (e : Event) : bool :=
  match e with
  | EvSpawn _ _ | EvSpawnSync _ _ => true
  | _ => false
  end.

(** Did the child close with exit code 0? *)
Definition closedOk (o : ChildOutcome) : bool :=
  match o with
  | Close code _ => isZero code
  | ErrorEvent => false
  end.

(** The state in which dispatch begins: after the configuration, if any,
    was written. *)
Definition prepared (id : string) (configJson : option string) (s : State)
  : State :=
  fst (writeConfig id configJson s).

(** Is the registry absent, empty or blank? *)
Definition registryBlank (s : State) : bool :=
  match registry s with
  | None => true
  | Some c => Js.isEmpty (Js.trim c)
  end.

(** [saveCanvasPaneId(x)] followed by [getCanvasPaneId()]. *)
Definition saveThenGet (outside : Outside) (x : string)
  : Async (option string) :=
  saveCanvasPaneId x ;;; getCanvasPaneId outside.

(** How often the character [c] occurs in [s]. *)
Fixpoint occurrences (c : ascii) (s : string) : nat :=
  match s with
  | EmptyString => O
  | String a r => (if Ascii.eqb a c then 1 else 0) + occurrences c r
  end.

(** The host's side of the escaping; it is the script language's rule for
    a string literal, not code of this repository.  Reading starts after
    the opening quote: a backslash announces an escape (a double quote, a
    backslash, or n, r, t for LF, CR, TAB), a bare double quote closes the
    literal.  The result is the text the literal denotes and what follows
    the closing quote; a literal that is never closed or holds an unknown
    escape is an error. *)
Module AppleScript.

Definition unescape (c : ascii) : option ascii :=
  let n := nat_of_ascii c in
  if Nat.eqb n 34 then Some c
  else if Nat.eqb n 92 then Some c
  else if Nat.eqb n 110 then Some (ascii_of_nat 10)
  else if Nat.eqb n 114 then Some (ascii_of_nat 13)
  else if Nat.eqb n 116 then Some (ascii_of_nat 9)
  else None.

Definition consText (c : ascii) (p : string * string) : string * string :=
  (String c (fst p), snd p).

Fixpoint readLiteral (s : string) : option (string * string) :=
  match s with
  | EmptyString => None
  | String c r =>
      if Ascii.eqb c (ascii_of_nat 34) then Some (EmptyString, r)
      else if Ascii.eqb c (ascii_of_nat 92) then
        match r with
        | EmptyString => None
        | String d r' =>
            match unescape d with
            | Some x => option_map (consText x) (readLiteral r')
            | None => None
            end
        end
      else option_map (consText c) (readLiteral r)
  end.

End AppleScript.

(** ** Vocabulary of the routes of a dispatch *)

(** The events of the multiplexer adapter, by name. *)
Definition evLookup (p : string) : Event :=
  EvSpawnSync "tmux" (lookupArgs p).
Definition evInterrupt (p : string) : Event :=
  EvSpawn "tmux" (interruptArgs p).
Definition evRun (p command : string) : Event :=
  EvSpawn "tmux" (runArgs p command).
Definition evSplit (command : string) : Event :=
  EvSpawn "tmux" (splitArgs command).
Definition evClear : Event := EvWrite CANVAS_PANE_FILE EmptyString.
Definition evSave (paneId : string) : Event :=
  EvWrite CANVAS_PANE_FILE paneId.

(** How many events of a list pass a test. *)
Definition countIf (f : Event -> bool) (l : list Event) : nat :=
  length (List.filter f l).

(** Does [pat] occur in [s]? *)
Fixpoint contains (pat s : string) : bool :=
  Js.startsWith pat s
  || match s with
     | EmptyString => false
     | String _ r => contains pat r
     end.

(** In state [s] the registry can be read and the host confirms its
    pane [p]: the lookup returns status 0 and echoes [p]. *)
Definition Confirmed (o : Outside) (s : State) (p : string) : Prop :=
  exists c r,
    registry s = Some c /\ p = Js.trim c /\
    read_fault o (trace s) CANVAS_PANE_FILE = false /\
    host_sync o (trace s) "tmux" (lookupArgs p) = SyncReturn r /\
    status r = Some 0 /\
    option_map Js.trim (stdout r) = Some p.

(** The events a run leaves pending. *)
Definition scheduled (s s' : State) : list Event :=
  drop (length (pending s)) (pending s').

(** What precedes a split request in a run of [spawnTmux] from [s]: the
    events, the files when the request is made, and the events left
    pending by then. *)
Inductive Prelude (o : Outside) (command : string) (s : State)
  : list Event -> gmap string string -> list Event -> Prop :=
| PreAbsent :
    registry s = None ->
    Prelude o command s [] (files s) []
| PreUnreadable c :
    registry s = Some c ->
    read_fault o (trace s) CANVAS_PANE_FILE = true ->
    Prelude o command s [] (files s) []
| PreThrown c :
    registry s = Some c ->
    read_fault o (trace s) CANVAS_PANE_FILE = false ->
    host_sync o (trace s) "tmux" (lookupArgs (Js.trim c)) = SyncThrows ->
    Prelude o command s [evLookup (Js.trim c)] (files s) []
| PreEmpty p :
    Confirmed o s p -> Js.truthy p = false ->
    Prelude o command s [evLookup p] (files s) []
| PreStale c r :
    registry s = Some c ->
    read_fault o (trace s) CANVAS_PANE_FILE = false ->
    host_sync o (trace s) "tmux" (lookupArgs (Js.trim c)) = SyncReturn r ->
    paneConfirmed r (Js.trim c) = false ->
    Prelude o command s [evLookup (Js.trim c); evClear]
      (<[CANVAS_PANE_FILE := EmptyString]> (files s)) []
| PreBroken p :
    Confirmed o s p -> Js.truthy p = true ->
    host_async o (trace s ++ [evLookup p]) "tmux" (interruptArgs p)
      = ErrorEvent ->
    Prelude o command s [evLookup p; evInterrupt p; evClear]
      (<[CANVAS_PANE_FILE := EmptyString]> (files s))
      [EvTimeout 150; evRun p command]
| PreRejected p code out :
    Confirmed o s p -> Js.truthy p = true ->
    host_async o (trace s ++ [evLookup p]) "tmux" (interruptArgs p)
      = Close code out ->
    closedOk (host_async o
                (trace s ++ [evLookup p; evInterrupt p; EvTimeout 150])
                "tmux" (runArgs p command)) = false ->
    Prelude o command s
      [evLookup p; evInterrupt p; EvTimeout 150; evRun p command; evClear]
      (<[CANVAS_PANE_FILE := EmptyString]> (files s)) [].

(** What follows a split request answered by [answer], made when the files
    were [base]: the events after it and the files at the end. *)
Definition Creation (answer : ChildOutcome) (base : gmap string string)
    (tail : list Event) (final : gmap string string) : Prop :=
  match answer with
  | Close code out =>
      if isZero code && Js.truthy (Js.trim out)
      then tail = [evSave (Js.trim out)]
           /\ final = <[CANVAS_PANE_FILE := Js.trim out]> base
      else tail = [] /\ final = base
  | ErrorEvent => tail = [] /\ final = base
  end.

(** The routes of [spawnTmux] from [s]: the final state, the result, the
    events of the run and the events it leaves pending. *)
Inductive Route (o : Outside) (command : string) (s : State)
  : State -> bool -> list Event -> list Event -> Prop :=
| RouteReuse p code out s' :
    Confirmed o s p -> Js.truthy p = true ->
    host_async o (trace s ++ [evLookup p]) "tmux" (interruptArgs p)
      = Close code out ->
    closedOk (host_async o
                (trace s ++ [evLookup p; evInterrupt p; EvTimeout 150])
                "tmux" (runArgs p command)) = true ->
    files s' = files s ->
    Route o command s s' true
      [evLookup p; evInterrupt p; EvTimeout 150; evRun p command] []
| RouteCreate pre base late tail s' :
    Prelude o command s pre base late ->
    Creation (host_async o (trace s ++ pre) "tmux" (splitArgs command))
      base tail (files s') ->
    Route o command s s'
      (closedOk (host_async o (trace s ++ pre) "tmux" (splitArgs command)))
      (pre ++ evSplit command :: tail) late.

(** ** Sample surroundings *)

Module Sample.

(** A multiplexer that knows the panes [live] and sits in pane
    [current] (the pane an empty target names), answers a split request
    with [split], accepts every [send-keys] with exit code [keys], and a
    GUI host whose automation ends as [gui]. *)
Definition tmuxLike (live : list string) (current : string)
    (split gui : ChildOutcome) (keys : Z) : Outside :=
  {| host_sync := fun _ _ args =>
       match args with
       | [_; _; target; _; _] =>
           if Js.isEmpty target
           then SyncReturn {| status := Some 0;
                              stdout := Some (current +:+ Js.nl) |}
           else if existsb (strEq target) live
           then SyncReturn {| status := Some 0;
                              stdout := Some (target +:+ Js.nl) |}
           else SyncReturn {| status := Some 1; stdout := Some EmptyString |}
       | _ => SyncReturn {| status := Some 1; stdout := Some EmptyString |}
       end;
     host_async := fun _ file args =>
       if strEq file "osascript" then gui
       else match args with
            | a :: _ =>
                if strEq a "split-window" then split
                else Close (Some keys) EmptyString
            | [] => ErrorEvent
            end;
     read_fault := fun _ _ => false |}.

(** The same multiplexer when no [send-keys] process can be started:
    each ends with ['error']. *)
Definition tmuxWithoutKeys (live : list string) (current : string)
    (split : ChildOutcome) : Outside :=
  {| host_sync := host_sync (tmuxLike live current split split 0);
     host_async := fun _ _ args =>
       match args with
       | a :: _ => if strEq a "split-window" then split else ErrorEvent
       | [] => ErrorEvent
       end;
     read_fault := fun _ _ => false |}.

Definition created (paneId : string) : ChildOutcome :=
  Close (Some 0) (paneId +:+ Js.nl).

Definition refused : ChildOutcome := Close (Some 1) EmptyString.

(** A state whose registry file holds [c], nothing done yet. *)
Definition holding (c : string) : State :=
  {| files := {[ CANVAS_PANE_FILE := c ]}; trace := []; pending := [] |}.

(** A state without a registry file. *)
Definition fresh : State := {| files := ∅; trace := []; pending := [] |}.

Definition inBoth : Process :=
  {| env_TMUX := Some "/tmp/tmux-501/default,4242,0";
     env_TERM_PROGRAM := Some "ghostty";
     platform := "darwin";
     import_meta_dir := "/opt/canvas/src" |}.

Definition inTmuxOnly : Process :=
  {| env_TMUX := Some "/tmp/tmux-1000/default,917,0";
     env_TERM_PROGRAM := Some "xterm";
     platform := "linux";
     import_meta_dir := "/opt/canvas/src" |}.

Definition inNeither : Process :=
  {| env_TMUX := None;
     env_TERM_PROGRAM := Some "ghostty";
     platform := "linux";
     import_meta_dir := "/opt/canvas/src" |}.

End Sample.

(** * Properties *)

(** ** Strings *)

Lemma strEq_eq (a b : string) : strEq a b = true <-> a = b.
Proof. apply String.eqb_eq. Qed.

Lemma strEq_refl (a : string) : strEq a a = true.
Proof. apply String.eqb_refl. Qed.

Lemma optStrEq_eq (o : option string) (b : string) :
  optStrEq o b = true <-> o = Some b.
Proof.
  destruct o as [a|]; simpl.
  - rewrite strEq_eq. split; congruence.
  - split; discriminate.
Qed.

Lemma isZero_eq (code : option Z) : isZero code = true <-> code = Some 0.
Proof.
  destruct code as [c|]; simpl.
  - rewrite Z.eqb_eq. split; congruence.
  - split; discriminate.
Qed.

Lemma isEmpty_eq (s : string) : Js.isEmpty s = true <-> s = EmptyString.
Proof. destruct s; simpl; split; congruence. Qed.

Lemma truthy_false (s : string) : Js.truthy s = false <-> s = EmptyString.
Proof. unfold Js.truthy. destruct s; simpl; split; congruence. Qed.

Lemma trimEnd_idem (s : string) : Js.trimEnd (Js.trimEnd s) = Js.trimEnd s.
Proof.
  induction s as [|c r IH]; simpl; [reflexivity|].
  destruct (Js.isWhiteSpace c && Js.isEmpty (Js.trimEnd r)) eqn:E;
    simpl; [reflexivity|].
  rewrite IH, E. reflexivity.
Qed.

Lemma trimStart_headVisible (s : string) : headVisible (Js.trimStart s).
Proof.
  induction s as [|c r IH]; simpl; [exact I|].
  destruct (Js.isWhiteSpace c) eqn:E; [exact IH | simpl; exact E].
Qed.

Lemma trimStart_fixed (s : string) : headVisible s -> Js.trimStart s = s.
Proof. destruct s as [|c r]; simpl; [reflexivity|]. intros ->. reflexivity. Qed.

Lemma trimEnd_headVisible (s : string) :
  headVisible s -> headVisible (Js.trimEnd s).
Proof.
  destruct s as [|c r]; simpl; [trivial|].
  intros H. rewrite H. simpl. exact H.
Qed.

(** Trimming twice is trimming once: what [createNewPane] saves is
    read back unchanged by [getCanvasPaneId]. *)
Lemma trim_idem (s : string) : Js.trim (Js.trim s) = Js.trim s.
Proof.
  unfold Js.trim.
  rewrite (trimStart_fixed (Js.trimEnd (Js.trimStart s))).
  - apply trimEnd_idem.
  - apply trimEnd_headVisible, trimStart_headVisible.
Qed.

(** ** Traces *)

Lemma added_app (s s' : State) (evs : list Event) :
  trace s' = trace s ++ evs -> added s s' = evs.
Proof. unfold added. intros ->. apply drop_app_length. Qed.

Lemma added_same (s : State) : added s s = [].
Proof. apply added_app. symmetry. apply app_nil_r. Qed.

(** ** Environment detection *)

Lemma summary_cases (p : Process) :
  summary (detectTerminal p) =
    if inGhostty (detectTerminal p) && isMacOS (detectTerminal p)
    then "ghostty (macOS)"
    else if inTmux (detectTerminal p) then "tmux" else "unsupported".
Proof. reflexivity. Qed.

(** C9. Detection is a total function of the three signals and classifies
    by first match: the terminal program is ghostty and the platform is
    darwin exactly when the summary is the GUI-host one; failing that, a
    non-empty TMUX variable gives tmux; failing both, unsupported.  No
    input is left unclassified. *)
Theorem detectTerminal_classifies (p : Process) :
  let gui := env_TERM_PROGRAM p = Some "ghostty" /\ platform p = "darwin" in
  let mux := exists v, env_TMUX p = Some v /\ v <> EmptyString in
  (exists! e, detectTerminal p = e) /\
  (summary (detectTerminal p) = "ghostty (macOS)" <-> gui) /\
  (summary (detectTerminal p) = "tmux" <-> ~ gui /\ mux) /\
  (summary (detectTerminal p) = "unsupported" <-> ~ gui /\ ~ mux) /\
  (summary (detectTerminal p) = "ghostty (macOS)"
   \/ summary (detectTerminal p) = "tmux"
   \/ summary (detectTerminal p) = "unsupported").
Proof.
  intros gui mux.
  assert (Hg : inGhostty (detectTerminal p) && isMacOS (detectTerminal p)
               = true <-> gui).
  { unfold gui. simpl. rewrite andb_true_iff, optStrEq_eq, strEq_eq.
    reflexivity. }
  assert (Hm : inTmux (detectTerminal p) = true <-> mux).
  { unfold mux. simpl. destruct (env_TMUX p) as [v|]; simpl.
    - destruct v; simpl; split.
      + discriminate.
      + intros (v & Hv & Hne). congruence.
      + intros _. eexists. split; [reflexivity | discriminate].
      + reflexivity.
    - split; [discriminate | intros (v & Hv & _); discriminate]. }
  split.
  { exists (detectTerminal p). split; [reflexivity | auto]. }
  clearbody gui mux. rewrite summary_cases.
  destruct (inGhostty (detectTerminal p) && isMacOS (detectTerminal p)).
  - assert (gui) by (apply Hg; reflexivity).
    intuition discriminate.
  - assert (~ gui) by (rewrite <- Hg; discriminate).
    destruct (inTmux (detectTerminal p)).
    + assert (mux) by (apply Hm; reflexivity). intuition discriminate.
    + assert (~ mux) by (rewrite <- Hm; discriminate).
      intuition discriminate.
Qed.

(** ** The registry: reading and validating *)

Section Registry.

Variable outside : Outside.

(** The whole behaviour of [getCanvasPaneId], branch by branch. *)
Lemma getCanvasPaneId_run (s : State) :
  getCanvasPaneId outside s =
    match registry s with
    | None => (s, Returns None)
    | Some c =>
        if read_fault outside (trace s) CANVAS_PANE_FILE
        then (s, Returns None)
        else
          let paneId := Js.trim c in
          let ev := EvSpawnSync "tmux" (lookupArgs paneId) in
          match host_sync outside (trace s) "tmux" (lookupArgs paneId) with
          | SyncThrows => (emit ev s, Returns None)
          | SyncReturn r =>
              if paneConfirmed r paneId
              then (emit ev s, Returns (Some paneId))
              else (fst (Bun_write CANVAS_PANE_FILE EmptyString (emit ev s)),
                    Returns None)
          end
    end.
Proof.
  unfold registry.
  destruct (files s !! CANVAS_PANE_FILE) as [c|] eqn:Hfile;
    unfold getCanvasPaneId, tryCatch, bind, file_exists, file_text,
      spawnSync, ret; rewrite ?Hfile; [|reflexivity].
  destruct (read_fault outside (trace s) CANVAS_PANE_FILE); [reflexivity|].
  cbv zeta.
  destruct (host_sync outside (trace s) "tmux" (lookupArgs (Js.trim c)))
    as [|r]; [reflexivity|].
  destruct (paneConfirmed r (Js.trim c)); reflexivity.
Qed.

Lemma paneConfirmed_eq (r : SyncReturns) (paneId : string) :
  paneConfirmed r paneId = true <->
  status r = Some 0 /\ option_map Js.trim (stdout r) = Some paneId.
Proof.
  unfold paneConfirmed. rewrite andb_true_iff, isZero_eq, optStrEq_eq.
  reflexivity.
Qed.

(** [getCanvasPaneId] never throws, whatever the outside does. *)
Lemma getCanvasPaneId_returns (s : State) :
  exists s' v, getCanvasPaneId outside s = (s', Returns v).
Proof.
  rewrite getCanvasPaneId_run.
  destruct (registry s) as [c|]; [|eauto].
  destruct (read_fault outside (trace s) CANVAS_PANE_FILE); [eauto|].
  simpl.
  destruct (host_sync outside (trace s) "tmux" (lookupArgs (Js.trim c)))
    as [|r]; [eauto|].
  destruct (paneConfirmed r (Js.trim c)); eauto.
Qed.

(** C2. For a stored reference (the registry file's text, trimmed),
    [getCanvasPaneId] hands the reference back exactly when reading the
    file did not fail, the lookup returned with status 0 and its trimmed
    output is the stored identifier; in every other case, a failed read
    and a throwing or failing lookup included, it returns null.  It never
    throws. *)
Theorem getCanvasPaneId_valid_iff (s : State) (c : string) :
  registry s = Some c ->
  let paneId := Js.trim c in
  exists s' v,
    getCanvasPaneId outside s = (s', Returns v) /\
    (v = Some paneId \/ v = None) /\
    (v = Some paneId <->
       read_fault outside (trace s) CANVAS_PANE_FILE = false /\
       exists r,
         host_sync outside (trace s) "tmux" (lookupArgs paneId) = SyncReturn r
         /\ status r = Some 0
         /\ option_map Js.trim (stdout r) = Some paneId) /\
    (read_fault outside (trace s) CANVAS_PANE_FILE = true -> v = None) /\
    (host_sync outside (trace s) "tmux" (lookupArgs paneId) = SyncThrows ->
     v = None).
Proof.
  intros Hreg paneId. rewrite getCanvasPaneId_run, Hreg. fold paneId.
  destruct (read_fault outside (trace s) CANVAS_PANE_FILE).
  { do 2 eexists. split; [reflexivity|]. split; [now right|].
    split; [|split; reflexivity].
    split; [discriminate | intros [? _]; discriminate]. }
  simpl.
  destruct (host_sync outside (trace s) "tmux" (lookupArgs paneId))
    as [|r] eqn:Hsync.
  { do 2 eexists. split; [reflexivity|]. split; [now right|].
    split; [|split; reflexivity].
    split; [discriminate | intros [_ (r & Hr & _)]; discriminate]. }
  destruct (paneConfirmed r paneId) eqn:Hok.
  - do 2 eexists. split; [reflexivity|]. split; [now left|].
    split; [|split; discriminate].
    split; [|reflexivity]. intros _. split; [reflexivity|].
    exists r. apply paneConfirmed_eq in Hok. tauto.
  - do 2 eexists. split; [reflexivity|]. split; [now right|].
    split; [|split; reflexivity].
    split; [discriminate|].
    intros [_ (r' & Hr' & Hst & Hout)].
    assert (r' = r) by congruence. subst r'.
    assert (paneConfirmed r paneId = true) by (apply paneConfirmed_eq; tauto).
    congruence.
Qed.

End Registry.

(** C2, at a registry holding a live pane. *)
Lemma getCanvasPaneId_valid_iff_witness :
  let o := Sample.tmuxLike ["%3"] "%0" (Sample.created "%7")
             Sample.refused 0 in
  registry (Sample.holding "%3") = Some "%3" /\
  exists s' v,
    getCanvasPaneId o (Sample.holding "%3") = (s', Returns v) /\
    (v = Some "%3" \/ v = None) /\
    (v = Some "%3" <->
       read_fault o [] CANVAS_PANE_FILE = false /\
       exists r,
         host_sync o [] "tmux" (lookupArgs "%3") = SyncReturn r
         /\ status r = Some 0
         /\ option_map Js.trim (stdout r) = Some "%3") /\
    (read_fault o [] CANVAS_PANE_FILE = true -> v = None) /\
    (host_sync o [] "tmux" (lookupArgs "%3") = SyncThrows -> v = None).
Proof.
  intros o. split; [reflexivity|].
  apply (getCanvasPaneId_valid_iff o (Sample.holding "%3") "%3").
  reflexivity.
Defined.

(** ** The registry: absent, empty or blank *)

(** C6, as stated, fails: with an empty registry file the lookup is
    issued all the same, with an empty target; the host answers with its
    current pane, and the file is overwritten with empty content again. *)
Lemma empty_registry_is_looked_up :
  let o := Sample.tmuxLike ["%3"] "%0" (Sample.created "%7")
             Sample.refused 0 in
  let s := Sample.holding EmptyString in
  registry s = Some EmptyString /\
  added s (fst (getCanvasPaneId o s)) =
    [EvSpawnSync "tmux" (lookupArgs EmptyString);
     EvWrite CANVAS_PANE_FILE EmptyString] /\
  existsb isLookup (added s (fst (getCanvasPaneId o s))) = true.
Proof. vm_compute. repeat split. Qed.

(** C6, amended.  Without a registry file nothing is asked of the host
    and nothing changes.  With an empty or blank file the result is null
    or the empty string, neither of which the dispatcher takes for a
    reference; unless reading the file fails, one lookup with an empty
    target is issued first. *)
Theorem getCanvasPaneId_blank (outside : Outside) (s : State) :
  registryBlank s = true ->
  exists s' v,
    getCanvasPaneId outside s = (s', Returns v) /\
    Js.truthy_opt v = false /\
    (registry s = None -> s' = s /\ v = None) /\
    (registry s <> None ->
     if read_fault outside (trace s) CANVAS_PANE_FILE
     then s' = s /\ v = None
     else exists rest,
         added s s' = EvSpawnSync "tmux" (lookupArgs EmptyString) :: rest
         /\ existsb isLookup rest = false).
Proof.
  unfold registryBlank. intros Hblank. rewrite getCanvasPaneId_run.
  destruct (registry s) as [c|].
  2:{ exists s, None. repeat split; congruence. }
  apply isEmpty_eq in Hblank. rewrite Hblank.
  destruct (read_fault outside (trace s) CANVAS_PANE_FILE).
  { exists s, None. repeat split; congruence. }
  cbv zeta.
  destruct (host_sync outside (trace s) "tmux" (lookupArgs EmptyString))
    as [|r].
  - do 2 eexists. split; [reflexivity|]. repeat split; try congruence.
    intros _. exists []. split; [|reflexivity].
    apply added_app. reflexivity.
  - destruct (paneConfirmed r EmptyString).
    + do 2 eexists. split; [reflexivity|]. repeat split; try congruence.
      intros _. exists []. split; [|reflexivity].
      apply added_app. reflexivity.
    + do 2 eexists. split; [reflexivity|]. repeat split; try congruence.
      intros _. exists [EvWrite CANVAS_PANE_FILE EmptyString].
      split; [|reflexivity].
      apply added_app. simpl. rewrite <- app_assoc. reflexivity.
Qed.

(** C6 amended, at an empty registry file. *)
Lemma getCanvasPaneId_blank_witness :
  let o := Sample.tmuxLike ["%3"] "%0" (Sample.created "%7")
             Sample.refused 0 in
  let s := Sample.holding EmptyString in
  registryBlank s = true /\
  exists s' v,
    getCanvasPaneId o s = (s', Returns v) /\
    Js.truthy_opt v = false /\
    (registry s = None -> s' = s /\ v = None) /\
    (registry s <> None ->
     if read_fault o (trace s) CANVAS_PANE_FILE
     then s' = s /\ v = None
     else exists rest,
         added s s' = EvSpawnSync "tmux" (lookupArgs EmptyString) :: rest
         /\ existsb isLookup rest = false).
Proof.
  intros o s. split; [reflexivity|].
  apply (getCanvasPaneId_blank o s). reflexivity.
Defined.

(** ** The registry: saving, then reading *)

(** C8, as stated, fails twice over: the read trims what was saved, and
    it hands back only what the host confirms. *)
Lemma save_then_get_differs :
  let o := Sample.tmuxLike ["%3"] "%0" (Sample.created "%7")
             Sample.refused 0 in
  snd (saveThenGet o " %3" Sample.fresh) = Returns (Some "%3") /\
  snd (saveThenGet o " %3" Sample.fresh) <> Returns (Some " %3") /\
  snd (saveThenGet o "%9" Sample.fresh) = Returns None.
Proof. vm_compute. repeat split. discriminate. Qed.

(** C8, amended.  For an identifier without white space at either end,
    saving it and reading it back yields the identifier, provided the
    file can be read and the host confirms the pane; the file then still
    holds it. *)
Theorem save_then_get (outside : Outside) (s : State) (x : string)
    (r : SyncReturns) :
  Js.trim x = x ->
  let t := trace s ++ [EvWrite CANVAS_PANE_FILE x] in
  read_fault outside t CANVAS_PANE_FILE = false ->
  host_sync outside t "tmux" (lookupArgs x) = SyncReturn r ->
  status r = Some 0 ->
  option_map Js.trim (stdout r) = Some x ->
  exists s',
    saveThenGet outside x s = (s', Returns (Some x)) /\
    registry s' = Some x.
Proof.
  intros Htrim t Hread Hsync Hst Hout.
  unfold saveThenGet, saveCanvasPaneId, bind, Bun_write.
  rewrite getCanvasPaneId_run. unfold registry. simpl.
  rewrite lookup_insert_eq. fold t. rewrite Hread. cbv zeta.
  rewrite Htrim, Hsync.
  assert (Hok : paneConfirmed r x = true) by (apply paneConfirmed_eq; tauto).
  rewrite Hok. eexists. split; [reflexivity|].
  simpl. apply lookup_insert_eq.
Qed.

(** C8 amended, at a pane the host knows. *)
Lemma save_then_get_witness :
  let o := Sample.tmuxLike ["%3"] "%0" (Sample.created "%7")
             Sample.refused 0 in
  Js.trim "%3" = "%3" /\
  exists s',
    saveThenGet o "%3" Sample.fresh = (s', Returns (Some "%3")) /\
    registry s' = Some "%3".
Proof.
  intros o. split; [reflexivity|].
  apply (save_then_get o Sample.fresh "%3"
           {| status := Some 0; stdout := Some ("%3" +:+ Js.nl) |});
    reflexivity.
Defined.

(** ** The multiplexer adapter *)

Section Multiplexer.

Variable outside : Outside.

Lemma createNewPane_run (command : string) (s : State) :
  createNewPane outside command s =
    let s1 := emit (EvSpawn "tmux" (splitArgs command)) s in
    match host_async outside (trace s) "tmux" (splitArgs command) with
    | Close code out =>
        if isZero code && Js.truthy (Js.trim out)
        then (fst (Bun_write CANVAS_PANE_FILE (Js.trim out) s1),
              Returns (isZero code))
        else (s1, Returns (isZero code))
    | ErrorEvent => (s1, Returns false)
    end.
Proof.
  unfold createNewPane, bind, spawn, saveCanvasPaneId, ret. cbv zeta.
  destruct (host_async outside (trace s) "tmux" (splitArgs command))
    as [code out|]; [|reflexivity].
  destruct (isZero code && Js.truthy (Js.trim out)); reflexivity.
Qed.

Lemma reuseExistingPane_run (paneId command : string) (s : State) :
  reuseExistingPane outside paneId command s =
    let s1 := emit (EvSpawn "tmux" (interruptArgs paneId)) s in
    match host_async outside (trace s) "tmux" (interruptArgs paneId) with
    | Close _ _ =>
        let s2 := emit (EvTimeout 150) s1 in
        (emit (EvSpawn "tmux" (runArgs paneId command)) s2,
         Returns (closedOk (host_async outside (trace s2) "tmux"
                              (runArgs paneId command))))
    | ErrorEvent =>
        (fst (later [EvTimeout 150; EvSpawn "tmux" (runArgs paneId command)]
                s1),
         Returns false)
    end.
Proof.
  unfold reuseExistingPane, bind, spawn, setTimeout, ret. cbv zeta.
  destruct (host_async outside (trace s) "tmux" (interruptArgs paneId));
    [|reflexivity].
  match goal with |- context [host_async outside ?t "tmux" (runArgs _ _)] =>
    destruct (host_async outside t "tmux" (runArgs paneId command)) end;
    reflexivity.
Qed.

(** Creating a pane starts one tmux process, the split request, and
    writes at most the registry file after it. *)
Lemma createNewPane_shape (command : string) (s : State) :
  exists s' post,
    createNewPane outside command s
      = (s', Returns (closedOk (host_async outside (trace s) "tmux"
                                 (splitArgs command)))) /\
    trace s' = trace s ++ EvSpawn "tmux" (splitArgs command) :: post /\
    existsb isProcess post = false /\
    match host_async outside (trace s) "tmux" (splitArgs command) with
    | Close code out =>
        if isZero code && Js.truthy (Js.trim out)
        then post = [EvWrite CANVAS_PANE_FILE (Js.trim out)]
             /\ registry s' = Some (Js.trim out)
        else post = [] /\ registry s' = registry s
    | ErrorEvent => post = [] /\ registry s' = registry s
    end.
Proof.
  rewrite createNewPane_run. cbv zeta.
  destruct (host_async outside (trace s) "tmux" (splitArgs command))
    as [code out|].
  - destruct (isZero code && Js.truthy (Js.trim out)) eqn:E.
    + do 2 eexists. split; [reflexivity|]. split.
      { simpl. rewrite <- app_assoc. reflexivity. }
      split; [reflexivity|]. split; [reflexivity|].
      unfold registry. simpl. apply lookup_insert_eq.
    + exists (emit (EvSpawn "tmux" (splitArgs command)) s), [].
      repeat split.
  - exists (emit (EvSpawn "tmux" (splitArgs command)) s), [].
    repeat split.
Qed.

End Multiplexer.

(** ** Stale references *)

(** C1, as stated, fails: the registry holds a pane the host no longer
    finds and the host refuses the split; the dispatch clears the registry,
    asks for a new pane and ends with nothing persisted. *)
Lemma stale_reference_without_new_pane :
  let o := Sample.tmuxLike [] "%0" Sample.refused Sample.refused 0 in
  let s := Sample.holding "%3" in
  registry s = Some "%3" /\
  host_sync o [] "tmux" (lookupArgs "%3")
    = SyncReturn {| status := Some 1; stdout := Some EmptyString |} /\
  snd (spawnTmux o "run" s) = Returns false /\
  added s (fst (spawnTmux o "run" s)) =
    [EvSpawnSync "tmux" (lookupArgs "%3");
     EvWrite CANVAS_PANE_FILE EmptyString;
     EvSpawn "tmux" (splitArgs "run")] /\
  registry (fst (spawnTmux o "run" s)) = Some EmptyString.
Proof. vm_compute. repeat split. Qed.

(** C1, amended.  When the lookup for the stored pane returns with a
    status other than 0 or with another identifier, the dispatch sends no
    keys to the old pane, overwrites the registry with empty content and
    then asks for a new split pane.  If that request closes with exit
    code 0 and prints a non-blank identifier, the trimmed identifier is
    persisted; otherwise nothing is persisted and the registry stays
    empty.  The adapter reports success exactly when the request closes
    with exit code 0, whether or not an identifier was printed. *)
Theorem spawnTmux_stale (outside : Outside) (command : string) (s : State)
    (c : string) (r : SyncReturns) :
  registry s = Some c ->
  read_fault outside (trace s) CANVAS_PANE_FILE = false ->
  host_sync outside (trace s) "tmux" (lookupArgs (Js.trim c)) = SyncReturn r ->
  status r <> Some 0 \/ option_map Js.trim (stdout r) <> Some (Js.trim c) ->
  let lookup :=
    EvSpawnSync "tmux" ["display-message"; "-t"; Js.trim c; "-p";
                        "#{pane_id}"] in
  let clear := EvWrite "/tmp/claude-canvas-pane-id" EmptyString in
  let split :=
    EvSpawn "tmux" ["split-window"; "-h"; "-p"; "67"; "-P"; "-F";
                    "#{pane_id}"; command] in
  let answer :=
    host_async outside (trace s ++ [lookup; clear]) "tmux"
      (splitArgs command) in
  exists s' post,
    spawnTmux outside command s = (s', Returns (closedOk answer)) /\
    added s s' = lookup :: clear :: split :: post /\
    existsb isSendKeys (added s s') = false /\
    match answer with
    | Close code out =>
        if isZero code && Js.truthy (Js.trim out)
        then post = [EvWrite CANVAS_PANE_FILE (Js.trim out)]
             /\ registry s' = Some (Js.trim out)
        else post = [] /\ registry s' = Some EmptyString
    | ErrorEvent => post = [] /\ registry s' = Some EmptyString
    end.
Proof.
  intros Hreg Hread Hsync Hstale lookup clear split answer.
  assert (Hno : paneConfirmed r (Js.trim c) = false).
  { destruct (paneConfirmed r (Js.trim c)) eqn:E; [|reflexivity].
    apply paneConfirmed_eq in E. tauto. }
  unfold spawnTmux, bind.
  rewrite getCanvasPaneId_run, Hreg, Hread. cbv zeta.
  rewrite Hsync, Hno. cbn [Js.truthy_opt].
  set (s1 := fst (Bun_write CANVAS_PANE_FILE EmptyString
                    (emit (EvSpawnSync "tmux" (lookupArgs (Js.trim c))) s))).
  assert (Ht1 : trace s1 = trace s ++ [lookup; clear]).
  { unfold s1. simpl. rewrite <- app_assoc. reflexivity. }
  assert (Hr1 : registry s1 = Some EmptyString).
  { unfold s1, registry. simpl. apply lookup_insert_eq. }
  destruct (createNewPane_shape outside command s1)
    as (s' & post & Hrun & Htr & Hpost & Hcase).
  rewrite Ht1 in Hrun, Hcase. fold answer in Hrun, Hcase.
  exists s', post. split; [exact Hrun|].
  assert (Hadd : added s s' = lookup :: clear :: split :: post).
  { apply added_app. rewrite Htr, Ht1, <- app_assoc. reflexivity. }
  split; [exact Hadd|]. split.
  - rewrite Hadd.
    destruct answer as [code out|].
    + destruct (isZero code && Js.truthy (Js.trim out));
        destruct Hcase as [-> _]; reflexivity.
    + destruct Hcase as [-> _]. reflexivity.
  - destruct answer as [code out|]; [|rewrite <- Hr1; exact Hcase].
    destruct (isZero code && Js.truthy (Js.trim out));
      [exact Hcase | rewrite <- Hr1; exact Hcase].
Qed.

(** C1 amended, at a registry holding a pane the host has closed. *)
Lemma spawnTmux_stale_witness :
  let o := Sample.tmuxLike [] "%0" (Sample.created "%7")
             Sample.refused 0 in
  let s := Sample.holding "%3" in
  let r := {| status := Some 1; stdout := Some EmptyString |} in
  (registry s = Some "%3" /\
   read_fault o (trace s) CANVAS_PANE_FILE = false /\
   host_sync o (trace s) "tmux" (lookupArgs (Js.trim "%3")) = SyncReturn r /\
   (status r <> Some 0
    \/ option_map Js.trim (stdout r) <> Some (Js.trim "%3"))) /\
  exists s' post,
    spawnTmux o "run" s = (s', Returns true) /\
    added s s' =
      EvSpawnSync "tmux" (lookupArgs "%3")
        :: EvWrite CANVAS_PANE_FILE EmptyString
        :: EvSpawn "tmux" (splitArgs "run") :: post /\
    existsb isSendKeys (added s s') = false /\
    post = [EvWrite CANVAS_PANE_FILE "%7"] /\
    registry s' = Some "%7".
Proof.
  intros o s r.
  assert (H1 : registry s = Some "%3") by reflexivity.
  assert (H2 : read_fault o (trace s) CANVAS_PANE_FILE = false)
    by reflexivity.
  assert (H3 : host_sync o (trace s) "tmux" (lookupArgs (Js.trim "%3"))
               = SyncReturn r) by reflexivity.
  assert (H4 : status r <> Some 0
               \/ option_map Js.trim (stdout r) <> Some (Js.trim "%3"))
    by (left; discriminate).
  split; [tauto|].
  destruct (spawnTmux_stale o "run" s "%3" r H1 H2 H3 H4)
    as (s' & post & Hrun & Hadd & Hkeys & Hcase).
  exists s', post. repeat split; try assumption; apply Hcase.
Defined.

(** ** The shape of a dispatch *)

Section Dispatch.

Variable outside : Outside.

(** Validation asks the host at most one lookup and writes at most the
    registry file; a blank registry never yields a reference. *)
Lemma getCanvasPaneId_shape (s : State) :
  exists s1 v pre,
    getCanvasPaneId outside s = (s1, Returns v) /\
    trace s1 = trace s ++ pre /\
    existsb isSplit pre = false /\
    existsb isSendKeys pre = false /\
    existsb (starts "osascript") pre = false /\
    (registryBlank s = true -> Js.truthy_opt v = false).
Proof.
  rewrite getCanvasPaneId_run. unfold registryBlank.
  destruct (registry s) as [c|].
  2:{ exists s, None, []. rewrite app_nil_r. repeat split. }
  destruct (read_fault outside (trace s) CANVAS_PANE_FILE).
  { exists s, None, []. rewrite app_nil_r. repeat split. }
  cbv zeta.
  destruct (host_sync outside (trace s) "tmux" (lookupArgs (Js.trim c)))
    as [|r].
  { do 3 eexists. split; [reflexivity|]. split; [reflexivity|].
    repeat split. }
  destruct (paneConfirmed r (Js.trim c)).
  - do 3 eexists. split; [reflexivity|]. split; [reflexivity|].
    repeat split. intros Hblank. apply isEmpty_eq in Hblank.
    rewrite Hblank. reflexivity.
  - do 3 eexists. split; [reflexivity|]. split.
    { simpl. rewrite <- app_assoc. reflexivity. }
    repeat split.
Qed.

(** Every run of the multiplexer adapter returns, starts at least one
    tmux process and never the GUI automation. *)
Lemma spawnTmux_shape (command : string) (s : State) :
  exists s' b evs,
    spawnTmux outside command s = (s', Returns b) /\
    trace s' = trace s ++ evs /\
    existsb (starts "tmux") evs = true /\
    existsb (starts "osascript") evs = false.
Proof.
  unfold spawnTmux, bind.
  destruct (getCanvasPaneId_shape s)
    as (s1 & v & pre & -> & Ht1 & _ & _ & Hgui & _).
  assert (Hnew : forall s2 mid,
             trace s2 = trace s ++ mid ->
             existsb (starts "osascript") mid = false ->
             exists s' b evs,
               createNewPane outside command s2 = (s', Returns b) /\
               trace s' = trace s ++ evs /\
               existsb (starts "tmux") evs = true /\
               existsb (starts "osascript") evs = false).
  { intros s2 mid Ht2 Hmid.
    destruct (createNewPane_shape outside command s2)
      as (s' & post & Hrun & Htr & Hpost & Hcase).
    exists s'. eexists.
    exists (mid ++ EvSpawn "tmux" (splitArgs command) :: post).
    split; [exact Hrun|]. split.
    { rewrite Htr, Ht2, <- app_assoc. reflexivity. }
    rewrite !existsb_app, Hmid. cbn [existsb starts].
    rewrite strEq_refl, orb_true_r. split; [reflexivity|].
    destruct (host_async outside (trace s2) "tmux" (splitArgs command))
      as [code out|].
    - destruct (isZero code && Js.truthy (Js.trim out));
        destruct Hcase as [-> _]; reflexivity.
    - destruct Hcase as [-> _]. reflexivity. }
  destruct (Js.truthy_opt v); [|apply (Hnew s1 pre Ht1 Hgui)].
  rewrite reuseExistingPane_run. cbv zeta.
  set (paneId := default EmptyString v).
  destruct (host_async outside (trace s1) "tmux" (interruptArgs paneId)).
  - match goal with |- context [closedOk ?o] => destruct (closedOk o) end.
    + do 3 eexists. split; [reflexivity|]. split.
      { simpl. rewrite Ht1, <- !app_assoc. reflexivity. }
      rewrite !existsb_app, Hgui. split; [|reflexivity].
      simpl. apply orb_true_r.
    + unfold Bun_write at 1.
      eapply Hnew.
      { simpl. rewrite Ht1, <- !app_assoc. reflexivity. }
      rewrite !existsb_app, Hgui. reflexivity.
  - unfold Bun_write at 1.
    eapply Hnew.
    { simpl. rewrite Ht1, <- !app_assoc. reflexivity. }
    rewrite !existsb_app, Hgui. reflexivity.
Qed.

End Dispatch.

(** ** spawnCanvas *)

Lemma configFile_not_registry (id : string) :
  configFile id <> CANVAS_PANE_FILE.
Proof. unfold configFile, CANVAS_PANE_FILE. simpl. discriminate. Qed.

(** Writing the configuration starts no process and leaves the registry
    alone. *)
Lemma writeConfig_shape (id : string) (configJson : option string)
    (s : State) :
  writeConfig id configJson s = (prepared id configJson s, Returns tt) /\
  registry (prepared id configJson s) = registry s /\
  exists evs,
    trace (prepared id configJson s) = trace s ++ evs /\
    (evs = [] \/ exists json, evs = [EvWrite (configFile id) json]).
Proof.
  unfold prepared, writeConfig.
  destruct configJson as [json|].
  2:{ repeat split. exists []. rewrite app_nil_r. auto. }
  destruct (Js.truthy json).
  - split; [reflexivity|]. split.
    + unfold registry. simpl. apply lookup_insert_ne.
      apply configFile_not_registry.
    + eexists. split; [reflexivity|]. right. eauto.
  - repeat split. exists []. rewrite app_nil_r. auto.
Qed.

Lemma added_prepared (id : string) (configJson : option string)
    (s : State) :
  existsb isProcess (added s (prepared id configJson s)) = false /\
  existsb isSplit (added s (prepared id configJson s)) = false /\
  existsb isSendKeys (added s (prepared id configJson s)) = false.
Proof.
  destruct (writeConfig_shape id configJson s) as (_ & _ & evs & Ht & Hevs).
  rewrite (added_app _ _ _ Ht).
  destruct Hevs as [-> | (json & ->)]; repeat split.
Qed.

Section Canvas.

Variable proc : Process.
Variable outside : Outside.

Lemma spawnGhostty_run (command : string) (s : State) :
  spawnGhostty outside command s =
    (emit (EvSpawn "osascript" ["-e"; ghosttyScript command]) s,
     Returns (closedOk (host_async outside (trace s) "osascript"
                          ["-e"; ghosttyScript command]))).
Proof.
  unfold spawnGhostty, bind, spawn, ret.
  destruct (host_async outside (trace s) "osascript"
              ["-e"; ghosttyScript command]); reflexivity.
Qed.

(** What the summary says about the two tests of the dispatch. *)
Lemma summary_tmux :
  summary (detectTerminal proc) = "tmux" ->
  inGhostty (detectTerminal proc) && isMacOS (detectTerminal proc) = false
  /\ inTmux (detectTerminal proc) = true.
Proof.
  rewrite summary_cases.
  destruct (inGhostty (detectTerminal proc) && isMacOS (detectTerminal proc));
    [discriminate|].
  destruct (inTmux (detectTerminal proc)); [auto | discriminate].
Qed.

Lemma summary_unsupported :
  summary (detectTerminal proc) = "unsupported" ->
  inGhostty (detectTerminal proc) && isMacOS (detectTerminal proc) = false
  /\ inTmux (detectTerminal proc) = false.
Proof.
  rewrite summary_cases.
  destruct (inGhostty (detectTerminal proc) && isMacOS (detectTerminal proc));
    [discriminate|].
  destruct (inTmux (detectTerminal proc)); [discriminate | auto].
Qed.

(** The dispatch after the command is built, as one case analysis. *)
Lemma spawnCanvas_run (kind id : string) (configJson : option string)
    (options : option SpawnOptions) (s : State) :
  let env := detectTerminal proc in
  let command := commandOf proc kind id configJson options in
  let s1 := prepared id configJson s in
  let viaTmux (s2 : State) :=
    if inTmux env
    then match spawnTmux outside command s2 with
         | (s3, Returns true) =>
             (s3, Returns {| method := "tmux"; pid := None |})
         | (s3, Returns false) => (s3, Throws (Error unsupportedMessage))
         | (s3, Throws e) => (s3, Throws e)
         end
    else (s2, Throws (Error unsupportedMessage)) in
  spawnCanvas proc outside kind id configJson options s =
    if inGhostty env && isMacOS env
    then
      let s2 := emit (EvSpawn "osascript" ["-e"; ghosttyScript command]) s1 in
      if closedOk (host_async outside (trace s1) "osascript"
                     ["-e"; ghosttyScript command])
      then (s2, Returns {| method := "ghostty"; pid := None |})
      else viaTmux s2
    else viaTmux s1.
Proof.
  intros env command s1 viaTmux.
  unfold spawnCanvas, bind.
  destruct (writeConfig_shape id configJson s) as (-> & _ & _).
  fold s1 env command.
  assert (Hvia : forall s2,
            (let (s', r) :=
               (if inTmux env then spawnTmux outside command
                else ret false) s2 in
             match r with
             | Returns a =>
                 (if a then ret {| method := "tmux"; pid := None |}
                  else throw (Error unsupportedMessage)) s'
             | Throws e => (s', Throws e)
             end) = viaTmux s2).
  { intros s2. unfold viaTmux. destruct (inTmux env); [|reflexivity].
    destruct (spawnTmux outside command s2) as [s3 [[|]|e]]; reflexivity. }
  destruct (inGhostty env && isMacOS env).
  - rewrite spawnGhostty_run. cbv zeta.
    destruct (closedOk _); [reflexivity | apply Hvia].
  - apply Hvia.
Qed.

End Canvas.

Section CanvasClaims.

Variable proc : Process.
Variable outside : Outside.
Variables kind id : string.
Variable configJson : option string.
Variable options : option SpawnOptions.

(** C3. The GUI automation, when the terminal is ghostty on darwin, is
    the first process a dispatch starts and is started once; tmux is
    started exactly when the TMUX marker is present and the GUI attempt
    either was not made or did not close with exit code 0; a GUI attempt
    that closes with exit code 0 gives method ghostty, and then no tmux
    process is started. *)
Theorem spawnCanvas_order (s : State) :
  let env := detectTerminal proc in
  let command := commandOf proc kind id configJson options in
  let s1 := prepared id configJson s in
  let script := EvSpawn "osascript" ["-e"; ghosttyScript command] in
  let guiTried := inGhostty env && isMacOS env in
  let guiOk :=
    guiTried && closedOk (host_async outside (trace s1) "osascript"
                            ["-e"; ghosttyScript command]) in
  exists s' res,
    spawnCanvas proc outside kind id configJson options s = (s', res) /\
    existsb isProcess (added s s1) = false /\
    (if guiTried
     then exists rest, added s1 s' = script :: rest
                       /\ existsb (starts "osascript") rest = false
     else existsb (starts "osascript") (added s1 s') = false) /\
    existsb (starts "tmux") (added s1 s') = inTmux env && negb guiOk /\
    (guiOk = true ->
     res = Returns {| method := "ghostty"; pid := None |}
     /\ existsb (starts "tmux") (added s1 s') = false).
Proof.
  intros env command s1 script guiTried guiOk.
  rewrite spawnCanvas_run. fold env command s1.
  cbv zeta. fold script guiTried.
  pose proof (added_prepared id configJson s) as (Hprep & _ & _).
  fold s1 in Hprep.
  unfold guiOk. clear guiOk.
  destruct guiTried.
  - set (answer := host_async outside (trace s1) "osascript"
                     ["-e"; ghosttyScript command]).
    destruct (closedOk answer); cbn [andb negb].
    + do 2 eexists. split; [reflexivity|]. split; [exact Hprep|].
      rewrite (added_app s1 (emit script s1) [script] eq_refl).
      split; [exists []; split; reflexivity|].
      rewrite andb_false_r. split; [reflexivity|]. intros _.
      split; reflexivity.
    + destruct (inTmux env).
      * destruct (spawnTmux_shape outside command (emit script s1))
          as (s' & b & evs & Hrun & Htr & Htmux & Hgui).
        rewrite Hrun.
        assert (Hadd : added s1 s' = script :: evs).
        { apply added_app. rewrite Htr. simpl. rewrite <- app_assoc.
          reflexivity. }
        exists s'.
        exists (if b then Returns {| method := "tmux"; pid := None |}
                else Throws (Error unsupportedMessage)).
        split; [destruct b; reflexivity|]. split; [exact Hprep|].
        rewrite Hadd. split; [exists evs; split; [reflexivity|exact Hgui]|].
        split; [|discriminate].
        cbn [existsb starts]. rewrite Htmux. apply orb_true_r.
      * do 2 eexists. split; [reflexivity|]. split; [exact Hprep|].
        rewrite (added_app s1 (emit script s1) [script] eq_refl).
        split; [exists []; split; reflexivity|].
        split; [reflexivity | discriminate].
  - cbn [andb negb]. rewrite andb_true_r.
    destruct (inTmux env).
    + destruct (spawnTmux_shape outside command s1)
        as (s' & b & evs & Hrun & Htr & Htmux & Hgui).
      rewrite Hrun.
      exists s'.
      exists (if b then Returns {| method := "tmux"; pid := None |}
              else Throws (Error unsupportedMessage)).
      split; [destruct b; reflexivity|]. split; [exact Hprep|].
      rewrite (added_app s1 s' evs Htr).
      split; [exact Hgui|]. split; [exact Htmux | discriminate].
    + do 2 eexists. split; [reflexivity|]. split; [exact Hprep|].
      rewrite added_same. split; [reflexivity|].
      split; [reflexivity | discriminate].
Qed.

(** C5. When neither ghostty on darwin nor a TMUX marker is detected,
    [spawnCanvas] returns no result: it throws the one error that names
    the supported environments, and starts no process. *)
Theorem spawnCanvas_unsupported (s : State) :
  summary (detectTerminal proc) = "unsupported" ->
  exists s',
    spawnCanvas proc outside kind id configJson options s
      = (s', Throws (Error unsupportedMessage)) /\
    existsb isProcess (added s s') = false.
Proof.
  intros Hsum. apply summary_unsupported in Hsum as [Hgui Htmux].
  rewrite spawnCanvas_run. cbv zeta. rewrite Hgui, Htmux.
  eexists. split; [reflexivity|]. apply added_prepared.
Qed.

(** C10. Whatever [spawnCanvas] returns, its [pid] is absent. *)
Theorem spawnCanvas_pid_absent (s s' : State) (result : SpawnResult) :
  spawnCanvas proc outside kind id configJson options s
    = (s', Returns result) ->
  pid result = None.
Proof.
  rewrite spawnCanvas_run. cbv zeta.
  assert (Hvia : forall s2,
            (if inTmux (detectTerminal proc)
             then match spawnTmux outside
                          (commandOf proc kind id configJson options) s2 with
                  | (s3, Returns true) =>
                      (s3, Returns {| method := "tmux"; pid := None |})
                  | (s3, Returns false) =>
                      (s3, Throws (Error unsupportedMessage))
                  | (s3, Throws e) => (s3, Throws e)
                  end
             else (s2, Throws (Error unsupportedMessage)))
            = (s', Returns result) -> pid result = None).
  { intros s2. destruct (inTmux (detectTerminal proc)); [|discriminate].
    destruct (spawnTmux outside _ s2) as [s3 [[|]|e]]; try discriminate.
    intros [= _ <-]. reflexivity. }
  destruct (inGhostty (detectTerminal proc) && isMacOS (detectTerminal proc));
    [|apply Hvia].
  destruct (closedOk _); [|apply Hvia].
  intros [= _ <-]. reflexivity.
Qed.

(** C4, amended.  In the multiplexer environment with no registry entry
    (the file absent, empty or blank), a dispatch sends no keys and asks
    for one new split pane, with [split-window -h -p 67 -P -F #{pane_id}]
    and the command.  If the request closes with exit code 0 the dispatch
    returns method tmux, otherwise it throws.  The identifier the host
    printed is persisted, trimmed, when the request closes with exit
    code 0 and the identifier is not blank; in every other case nothing is
    written after the request. *)
Theorem spawnCanvas_new_pane (s : State) :
  summary (detectTerminal proc) = "tmux" ->
  registryBlank s = true ->
  let command := commandOf proc kind id configJson options in
  let split :=
    EvSpawn "tmux" ["split-window"; "-h"; "-p"; "67"; "-P"; "-F";
                    "#{pane_id}"; command] in
  exists s' res pre post,
    spawnCanvas proc outside kind id configJson options s = (s', res) /\
    added s s' = pre ++ split :: post /\
    existsb isSplit pre = false /\
    existsb isSendKeys (added s s') = false /\
    existsb isProcess post = false /\
    let answer :=
      host_async outside (trace s ++ pre) "tmux" (splitArgs command) in
    (if closedOk answer
     then res = Returns {| method := "tmux"; pid := None |}
     else res = Throws (Error unsupportedMessage)) /\
    match answer with
    | Close code out =>
        if isZero code && Js.truthy (Js.trim out)
        then post = [EvWrite "/tmp/claude-canvas-pane-id" (Js.trim out)]
             /\ registry s' = Some (Js.trim out)
        else post = []
    | ErrorEvent => post = []
    end.
Proof.
  intros Hsum Hblank command split.
  apply summary_tmux in Hsum as [Hgui Htmux].
  rewrite spawnCanvas_run. cbv zeta. rewrite Hgui, Htmux. fold command.
  destruct (writeConfig_shape id configJson s) as (_ & Hreg & cfg & Ht1 & _).
  pose proof (added_prepared id configJson s) as (_ & Hcfg1 & Hcfg2).
  rewrite (added_app _ _ _ Ht1) in Hcfg1, Hcfg2.
  set (s1 := prepared id configJson s) in *.
  assert (Hblank1 : registryBlank s1 = true).
  { unfold registryBlank in *. rewrite Hreg. exact Hblank. }
  unfold spawnTmux, bind.
  destruct (getCanvasPaneId_shape outside s1)
    as (s2 & v & pre & -> & Ht2 & Hs & Hk & _ & Hv).
  rewrite (Hv Hblank1).
  destruct (createNewPane_shape outside command s2)
    as (s' & post & Hrun & Htr & Hpost & Hcase).
  rewrite Hrun.
  assert (Ht : trace s2 = trace s ++ (cfg ++ pre)).
  { rewrite Ht2, Ht1, <- app_assoc. reflexivity. }
  rewrite Ht in Hcase. fold split in Htr.
  set (answer := host_async outside (trace s ++ (cfg ++ pre)) "tmux"
                   (splitArgs command)) in *.
  assert (Hkeys : existsb isSendKeys post = false).
  { destruct answer as [code out|].
    - destruct (isZero code && Js.truthy (Js.trim out));
        destruct Hcase as [-> _]; reflexivity.
    - destruct Hcase as [-> _]. reflexivity. }
  exists s'.
  exists (if closedOk answer
          then Returns {| method := "tmux"; pid := None |}
          else Throws (Error unsupportedMessage)).
  exists (cfg ++ pre), post.
  split.
  { rewrite Ht. fold answer. destruct (closedOk answer); reflexivity. }
  assert (Hadd : added s s' = (cfg ++ pre) ++ split :: post).
  { apply added_app. rewrite Htr, Ht, <- app_assoc. reflexivity. }
  split; [exact Hadd|].
  split; [rewrite existsb_app, Hcfg1, Hs; reflexivity|].
  split.
  { rewrite Hadd, !existsb_app, Hcfg2, Hk. cbn [existsb orb]. exact Hkeys. }
  split; [exact Hpost|].
  cbv zeta. fold command answer. split.
  { destruct (closedOk answer); reflexivity. }
  destruct answer as [code out|]; [|apply Hcase].
  destruct (isZero code && Js.truthy (Js.trim out));
    [exact Hcase | apply Hcase].
Qed.

End CanvasClaims.

(** ** The GUI automation script: escaping the command *)

Lemma append_cons (x : ascii) (a b : string) :
  String x a +:+ b = String x (a +:+ b).
Proof. reflexivity. Qed.

Lemma append_assoc (a b c : string) : (a +:+ b) +:+ c = a +:+ (b +:+ c).
Proof.
  induction a as [|x a IH]; [reflexivity|].
  rewrite !append_cons, IH. reflexivity.
Qed.

Lemma length_append (a b : string) :
  String.length (a +:+ b) = (String.length a + String.length b)%nat.
Proof.
  induction a as [|x a IH]; [reflexivity|].
  rewrite append_cons. cbn [String.length]. rewrite IH. reflexivity.
Qed.

Lemma replaceAllChar_append (c : ascii) (rep a b : string) :
  Js.replaceAllChar c rep (a +:+ b) =
  Js.replaceAllChar c rep a +:+ Js.replaceAllChar c rep b.
Proof.
  induction a as [|x a IH]; [reflexivity|].
  rewrite append_cons. cbn [Js.replaceAllChar].
  rewrite IH, append_assoc. reflexivity.
Qed.

(** What the two replacements, in the program's order, make of one
    character: the backslash put before a quote is doubled by the second
    replacement. *)
Lemma escapeKeystroke_step (a : ascii) (r : string) :
  escapeKeystroke (String a r) =
    (if Ascii.eqb a (ascii_of_nat 34)
     then Js.backslash +:+ Js.backslash +:+ Js.dquote
     else if Ascii.eqb a (ascii_of_nat 92)
     then Js.backslash +:+ Js.backslash
     else String a EmptyString) +:+ escapeKeystroke r.
Proof.
  unfold escapeKeystroke. cbn [Js.replaceAllChar].
  rewrite replaceAllChar_append. f_equal.
  destruct (Ascii.eqb a (ascii_of_nat 34)) eqn:Eq; [reflexivity|].
  cbn [Js.replaceAllChar].
  destruct (Ascii.eqb a (ascii_of_nat 92)); reflexivity.
Qed.

Lemma escapeKeystroke_length (s : string) :
  String.length (escapeKeystroke s) =
    (String.length s + occurrences (ascii_of_nat 92) s
     + 2 * occurrences (ascii_of_nat 34) s)%nat.
Proof.
  induction s as [|a r IH]; [reflexivity|].
  rewrite escapeKeystroke_step, length_append, IH.
  cbn [occurrences String.length].
  destruct (Ascii.eqb a (ascii_of_nat 34)) eqn:Eq.
  - apply Ascii.eqb_eq in Eq. subst a. simpl. lia.
  - destruct (Ascii.eqb a (ascii_of_nat 92)); simpl; lia.
Qed.

Lemma specEscape_length (s : string) :
  String.length (specEscape s) =
    (String.length s + occurrences (ascii_of_nat 92) s
     + occurrences (ascii_of_nat 34) s)%nat.
Proof.
  induction s as [|a r IH]; [reflexivity|].
  cbn [specEscape occurrences String.length].
  rewrite length_append, IH.
  destruct (Ascii.eqb a (ascii_of_nat 34)) eqn:Eq.
  - apply Ascii.eqb_eq in Eq. subst a. simpl. lia.
  - destruct (Ascii.eqb a (ascii_of_nat 92)); simpl; lia.
Qed.

(** The program's escaping is the specified one exactly on the commands
    without a double quote. *)
Lemma escapeKeystroke_agrees_iff (s : string) :
  escapeKeystroke s = specEscape s <-> occurrences (ascii_of_nat 34) s = O.
Proof.
  split.
  - intros H. apply (f_equal String.length) in H.
    rewrite escapeKeystroke_length, specEscape_length in H. lia.
  - induction s as [|a r IH]; [reflexivity|].
    cbn [occurrences]. intros H.
    destruct (Ascii.eqb a (ascii_of_nat 34)) eqn:Eq; [discriminate|].
    rewrite escapeKeystroke_step, Eq. cbn [specEscape]. rewrite Eq.
    rewrite (IH H). cbn [orb].
    destruct (Ascii.eqb a (ascii_of_nat 92)) eqn:Eb; [|reflexivity].
    apply Ascii.eqb_eq in Eb. subst a. reflexivity.
Qed.

(** The specified escaping denotes the original text. *)
Lemma readLiteral_specEscape (s rest : string) :
  AppleScript.readLiteral (specEscape s +:+ Js.dquote +:+ rest)
    = Some (s, rest).
Proof.
  induction s as [|a r IH]; [reflexivity|].
  cbn [specEscape].
  destruct (Ascii.eqb a (ascii_of_nat 34)) eqn:Eq.
  - apply Ascii.eqb_eq in Eq. subst a. cbn [orb].
    change (AppleScript.readLiteral
              (String (ascii_of_nat 92) (String (ascii_of_nat 34)
                 (specEscape r +:+ Js.dquote +:+ rest)))
            = Some (String (ascii_of_nat 34) r, rest)).
    cbn [AppleScript.readLiteral]. simpl Ascii.eqb. cbv iota.
    change (AppleScript.unescape (ascii_of_nat 34))
      with (Some (ascii_of_nat 34)).
    cbv iota. rewrite IH. reflexivity.
  - cbn [orb]. destruct (Ascii.eqb a (ascii_of_nat 92)) eqn:Eb.
    + apply Ascii.eqb_eq in Eb. subst a.
      change (AppleScript.readLiteral
                (String (ascii_of_nat 92) (String (ascii_of_nat 92)
                   (specEscape r +:+ Js.dquote +:+ rest)))
              = Some (String (ascii_of_nat 92) r, rest)).
      cbn [AppleScript.readLiteral]. simpl Ascii.eqb. cbv iota.
      change (AppleScript.unescape (ascii_of_nat 92))
        with (Some (ascii_of_nat 92)).
      cbv iota. rewrite IH. reflexivity.
    + change (AppleScript.readLiteral
                (String a (specEscape r +:+ Js.dquote +:+ rest))
              = Some (String a r, rest)).
      cbn [AppleScript.readLiteral]. rewrite Eq, Eb, IH. reflexivity.
Qed.

(** So does the program's escaping of a command without a double quote. *)
Lemma readLiteral_escapeKeystroke (s rest : string) :
  occurrences (ascii_of_nat 34) s = O ->
  AppleScript.readLiteral (escapeKeystroke s +:+ Js.dquote +:+ rest)
    = Some (s, rest).
Proof.
  intros H. apply escapeKeystroke_agrees_iff in H. rewrite H.
  apply readLiteral_specEscape.
Qed.

(** C7, at a command the program builds itself: with a configuration
    payload the command holds two double quotes.  The program's escaping
    puts two backslashes before each, where the specified escaping puts
    one; read back by the script interpreter, the keystroke literal ends
    at the first quote of the command, after a lone backslash, whereas the
    specified escaping denotes the command. *)
Theorem escapeKeystroke_config_command :
  let command := commandOf Sample.inBoth "calendar" "c1" (Some "{}") None in
  let head := "/opt/canvas/run-canvas.sh show calendar --id c1 --config " in
  let inner := "$(cat /tmp/canvas-config-c1.json)" in
  let tail := " --socket /tmp/canvas-c1.sock" in
  let q := Js.dquote in
  let b := Js.backslash in
  command = head +:+ q +:+ inner +:+ q +:+ tail /\
  escapeKeystroke command
    = head +:+ b +:+ b +:+ q +:+ inner +:+ b +:+ b +:+ q +:+ tail /\
  specEscape command = head +:+ b +:+ q +:+ inner +:+ b +:+ q +:+ tail /\
  escapeKeystroke command <> specEscape command /\
  AppleScript.readLiteral (escapeKeystroke command +:+ q +:+ Js.nl)
    = Some (head +:+ b,
            inner +:+ b +:+ b +:+ q +:+ tail +:+ q +:+ Js.nl) /\
  AppleScript.readLiteral (specEscape command +:+ q +:+ Js.nl)
    = Some (command, Js.nl).
Proof. vm_compute. repeat split. discriminate. Qed.

(** ** The theorems at sample surroundings *)

(** C3, where both markers are present and the GUI automation fails. *)
Lemma spawnCanvas_order_sample :
  let o := Sample.tmuxLike ["%3"] "%0" (Sample.created "%7")
             Sample.refused 0 in
  let run := spawnCanvas Sample.inBoth o "calendar" "c1" None None
               (Sample.holding "%3") in
  snd run = Returns {| method := "tmux"; pid := None |} /\
  map (starts "osascript") (added (Sample.holding "%3") (fst run))
    = [true; false; false; false; false] /\
  map (starts "tmux") (added (Sample.holding "%3") (fst run))
    = [false; true; true; false; true].
Proof. vm_compute. repeat split. Qed.

(** C4, as stated, fails: in tmux without a registry file, a split
    request that closes with exit code 0 but prints only white space makes
    the dispatch return method tmux with nothing persisted. *)
Lemma new_pane_without_identifier :
  let o := Sample.tmuxLike [] "%0" (Sample.created " ") Sample.refused 0 in
  let run := spawnCanvas Sample.inTmuxOnly o "calendar" "c1" None None
               Sample.fresh in
  summary (detectTerminal Sample.inTmuxOnly) = "tmux" /\
  registry Sample.fresh = None /\
  snd run = Returns {| method := "tmux"; pid := None |} /\
  added Sample.fresh (fst run) =
    [EvSpawn "tmux"
       ["split-window"; "-h"; "-p"; "67"; "-P"; "-F"; "#{pane_id}";
        "/opt/canvas/run-canvas.sh show calendar --id c1 --socket /tmp/canvas-c1.sock"]] /\
  host_async o [] "tmux"
    (splitArgs (commandOf Sample.inTmuxOnly "calendar" "c1" None None))
    = Close (Some 0) (" " +:+ Js.nl) /\
  registry (fst run) = None.
Proof. vm_compute. repeat split. Qed.

(** C4 amended, in tmux without a registry file. *)
Lemma spawnCanvas_new_pane_witness :
  let o := Sample.tmuxLike [] "%0" (Sample.created "%7")
             Sample.refused 0 in
  let s := Sample.fresh in
  let command := commandOf Sample.inTmuxOnly "calendar" "c1" (Some "{}")
                   None in
  let split :=
    EvSpawn "tmux" ["split-window"; "-h"; "-p"; "67"; "-P"; "-F";
                    "#{pane_id}"; command] in
  (summary (detectTerminal Sample.inTmuxOnly) = "tmux" /\
   registryBlank s = true) /\
  exists s' res pre post,
    spawnCanvas Sample.inTmuxOnly o "calendar" "c1" (Some "{}") None s
      = (s', res) /\
    added s s' = pre ++ split :: post /\
    existsb isSplit pre = false /\
    existsb isSendKeys (added s s') = false /\
    existsb isProcess post = false /\
    let answer := host_async o (trace s ++ pre) "tmux" (splitArgs command) in
    (if closedOk answer
     then res = Returns {| method := "tmux"; pid := None |}
     else res = Throws (Error unsupportedMessage)) /\
    match answer with
    | Close code out =>
        if isZero code && Js.truthy (Js.trim out)
        then post = [EvWrite "/tmp/claude-canvas-pane-id" (Js.trim out)]
             /\ registry s' = Some (Js.trim out)
        else post = []
    | ErrorEvent => post = []
    end.
Proof.
  intros o s command split.
  split; [split; reflexivity|].
  apply (spawnCanvas_new_pane Sample.inTmuxOnly o "calendar" "c1"
           (Some "{}") None s); reflexivity.
Defined.

(** C5, outside ghostty-on-darwin and outside tmux. *)
Lemma spawnCanvas_unsupported_witness :
  let o := Sample.tmuxLike ["%3"] "%0" (Sample.created "%7")
             (Sample.created EmptyString) 0 in
  let s := Sample.holding "%3" in
  summary (detectTerminal Sample.inNeither) = "unsupported" /\
  exists s',
    spawnCanvas Sample.inNeither o "calendar" "c1" (Some "{}") None s
      = (s', Throws (Error unsupportedMessage)) /\
    existsb isProcess (added s s') = false.
Proof.
  intros o s. split; [reflexivity|].
  apply (spawnCanvas_unsupported Sample.inNeither o "calendar" "c1"
           (Some "{}") None s).
  reflexivity.
Defined.

(** C10, at a dispatch that reuses a live pane. *)
Lemma spawnCanvas_pid_absent_witness :
  let o := Sample.tmuxLike ["%3"] "%0" (Sample.created "%7")
             Sample.refused 0 in
  let s := Sample.holding "%3" in
  let run := spawnCanvas Sample.inTmuxOnly o "calendar" "c1" None None s in
  run = (fst run, Returns {| method := "tmux"; pid := None |}) /\
  pid {| method := "tmux"; pid := None |} = None.
Proof.
  intros o s run.
  assert (H : run = (fst run, Returns {| method := "tmux"; pid := None |}))
    by (vm_compute; reflexivity).
  split; [exact H|].
  exact (spawnCanvas_pid_absent Sample.inTmuxOnly o "calendar" "c1" None None
           s (fst run) {| method := "tmux"; pid := None |} H).
Defined.

(** * Further properties *)

(** ** The routes of the multiplexer adapter *)

Section Routes.

Variable outside : Outside.
Variable command : string.

Lemma createNewPane_creation (s : State) :
  let answer := host_async outside (trace s) "tmux" (splitArgs command) in
  exists s' tail,
    createNewPane outside command s = (s', Returns (closedOk answer)) /\
    trace s' = trace s ++ evSplit command :: tail /\
    pending s' = pending s /\
    Creation answer (files s) tail (files s').
Proof.
  intros answer. rewrite createNewPane_run. cbv zeta. fold answer.
  unfold Creation.
  destruct answer as [code out|].
  - destruct (isZero code && Js.truthy (Js.trim out)) eqn:E.
    + do 2 eexists. split; [reflexivity|]. split.
      { simpl. rewrite <- app_assoc. reflexivity. }
      repeat split.
    + exists (emit (EvSpawn "tmux" (splitArgs command)) s), [].
      repeat split.
  - exists (emit (EvSpawn "tmux" (splitArgs command)) s), [].
    repeat split.
Qed.

(** A creation that starts in [s2], reached from [s] by the prelude
    [pre], completes a route. *)
Lemma route_create (s s2 : State) (pre late : list Event) :
  trace s2 = trace s ++ pre ->
  pending s2 = pending s ++ late ->
  Prelude outside command s pre (files s2) late ->
  exists s' b evs late',
    createNewPane outside command s2 = (s', Returns b) /\
    trace s' = trace s ++ evs /\
    pending s' = pending s ++ late' /\
    Route outside command s s' b evs late'.
Proof.
  intros Ht Hp Hpre.
  destruct (createNewPane_creation s2)
    as (s' & tail & Hrun & Htr & Hpend & Hc).
  rewrite Ht in Hrun, Hc.
  exists s'. eexists. exists (pre ++ evSplit command :: tail), late.
  split; [exact Hrun|]. split; [|split].
  - rewrite Htr, Ht, <- app_assoc. reflexivity.
  - rewrite Hpend. exact Hp.
  - apply (RouteCreate _ _ _ pre (files s2) late tail s' Hpre Hc).
Qed.

(** Every run of [spawnTmux] returns and follows one of the routes. *)
Lemma spawnTmux_routes (s : State) :
  exists s' b evs late,
    spawnTmux outside command s = (s', Returns b) /\
    trace s' = trace s ++ evs /\
    pending s' = pending s ++ late /\
    Route outside command s s' b evs late.
Proof.
  assert (Hnil : pending s = pending s ++ []) by (symmetry; apply app_nil_r).
  unfold spawnTmux, bind. rewrite getCanvasPaneId_run.
  destruct (registry s) as [c|] eqn:Hreg.
  2:{ cbn [Js.truthy_opt]. apply (route_create s s [] []).
      - symmetry. apply app_nil_r.
      - exact Hnil.
      - apply PreAbsent. exact Hreg. }
  destruct (read_fault outside (trace s) CANVAS_PANE_FILE) eqn:Hread.
  { cbn [Js.truthy_opt]. apply (route_create s s [] []).
    - symmetry. apply app_nil_r.
    - exact Hnil.
    - apply (PreUnreadable _ _ _ c); assumption. }
  cbv zeta.
  destruct (host_sync outside (trace s) "tmux" (lookupArgs (Js.trim c)))
    as [|r] eqn:Hsync.
  { cbn [Js.truthy_opt].
    apply (route_create s _ [evLookup (Js.trim c)] []).
    - reflexivity.
    - exact Hnil.
    - cbn [files emit fst Bun_write]. apply PreThrown; assumption. }
  destruct (paneConfirmed r (Js.trim c)) eqn:Hok.
  2:{ cbn [Js.truthy_opt].
      apply (route_create s _ [evLookup (Js.trim c); evClear] []).
      - simpl. rewrite <- app_assoc. reflexivity.
      - exact Hnil.
      - cbn [files emit fst Bun_write].
        apply (PreStale _ _ _ c r); assumption. }
  assert (Hconf : Confirmed outside s (Js.trim c)).
  { apply paneConfirmed_eq in Hok as [Hst Hout].
    exists c, r. repeat split; assumption. }
  cbn [Js.truthy_opt].
  change (default EmptyString (Some (Js.trim c))) with (Js.trim c).
  destruct (Js.truthy (Js.trim c)) eqn:Htruthy.
  2:{ apply (route_create s _ [evLookup (Js.trim c)] []);
        [reflexivity | exact Hnil |].
      cbn [files emit fst Bun_write]. apply PreEmpty; assumption. }
  set (p := Js.trim c) in *.
  rewrite reuseExistingPane_run. cbv zeta.
  change (trace (emit (EvSpawnSync "tmux" (lookupArgs p)) s))
    with (trace s ++ [evLookup p]).
  destruct (host_async outside (trace s ++ [evLookup p]) "tmux"
              (interruptArgs p)) as [code out|] eqn:Hkill.
  - assert (Ht : trace (emit (EvTimeout 150)
                          (emit (EvSpawn "tmux" (interruptArgs p))
                             (emit (EvSpawnSync "tmux" (lookupArgs p)) s)))
                 = trace s ++ [evLookup p; evInterrupt p; EvTimeout 150]).
    { simpl. rewrite <- !app_assoc. reflexivity. }
    rewrite Ht.
    destruct (closedOk (host_async outside
                (trace s ++ [evLookup p; evInterrupt p; EvTimeout 150])
                "tmux" (runArgs p command))) eqn:Hrun.
    + exists (emit (evRun p command)
                (emit (EvTimeout 150)
                   (emit (evInterrupt p) (emit (evLookup p) s)))).
      exists true.
      exists [evLookup p; evInterrupt p; EvTimeout 150; evRun p command], [].
      split; [reflexivity|]. split; [|split].
      * simpl. rewrite <- !app_assoc. reflexivity.
      * exact Hnil.
      * apply (RouteReuse _ _ _ p code out); try assumption.
        reflexivity.
    + unfold Bun_write at 1.
      apply (route_create s _
               [evLookup p; evInterrupt p; EvTimeout 150; evRun p command;
                evClear] []).
      * simpl. rewrite <- !app_assoc. reflexivity.
      * exact Hnil.
      * cbn [files emit fst Bun_write].
        apply (PreRejected _ _ _ p code out); assumption.
  - unfold Bun_write at 1.
    apply (route_create s _ [evLookup p; evInterrupt p; evClear]
             [EvTimeout 150; evRun p command]).
    + simpl. rewrite <- !app_assoc. reflexivity.
    + reflexivity.
    + cbn [files emit fst Bun_write later]. apply PreBroken; assumption.
Qed.

End Routes.

(** ** Reusing a confirmed pane *)

Section Reuse.

Variable outside : Outside.

(** A confirmed pane is what validation returns, after its one lookup. *)
Lemma confirmed_run (s : State) (p : string) :
  Confirmed outside s p ->
  getCanvasPaneId outside s = (emit (evLookup p) s, Returns (Some p)).
Proof.
  intros (c & r & Hreg & -> & Hread & Hsync & Hst & Hout).
  rewrite getCanvasPaneId_run, Hreg, Hread. cbv zeta. rewrite Hsync.
  assert (paneConfirmed r (Js.trim c) = true) as ->
    by (apply paneConfirmed_eq; tauto).
  reflexivity.
Qed.

(** With a confirmed, non-empty pane the adapter is the reuse sequence,
    followed on failure by a cleared registry and a creation. *)
Lemma spawnTmux_confirmed (command : string) (s : State) (p : string) :
  Confirmed outside s p -> Js.truthy p = true ->
  spawnTmux outside command s =
    match reuseExistingPane outside p command (emit (evLookup p) s) with
    | (s2, Returns true) => (s2, Returns true)
    | (s2, Returns false) =>
        createNewPane outside command
          (fst (Bun_write CANVAS_PANE_FILE EmptyString s2))
    | (s2, Throws e) => (s2, Throws e)
    end.
Proof.
  intros Hconf Htruthy. unfold spawnTmux, bind.
  rewrite (confirmed_run s p Hconf). cbn [Js.truthy_opt].
  rewrite Htruthy.
  change (default EmptyString (Some p)) with p.
  destruct (reuseExistingPane outside p command (emit (evLookup p) s))
    as [s2 [[|]|e]]; reflexivity.
Qed.

Lemma trace_after_interrupt (s : State) (p : string) :
  trace (emit (EvTimeout 150)
           (emit (EvSpawn "tmux" (interruptArgs p)) (emit (evLookup p) s)))
  = trace s ++ [evLookup p; evInterrupt p; EvTimeout 150].
Proof. simpl. rewrite <- !app_assoc. reflexivity. Qed.


Lemma scheduled_app (s s' : State) (evs : list Event) :
  pending s' = pending s ++ evs -> scheduled s s' = evs.
Proof. unfold scheduled. intros ->. apply drop_app_length. Qed.

(** X2. When the host confirms the stored pane but the reuse fails (the
    interrupt ends with ['error'], or the typing does not close with exit
    code 0), the registry is overwritten with empty content before a new
    pane is asked for; the dispatch then succeeds exactly when the split
    request closes with exit code 0, and unless an identifier is saved the
    registry is left empty.  After an ['error'] of the interrupt the wait
    and the typing are not skipped: the ['close'] handler still produces
    them, beside the dispatch, and they are what the run leaves pending. *)
Theorem spawnTmux_reuse_failed (command : string) (s : State) (p : string) :
  Confirmed outside s p ->
  Js.truthy p = true ->
  let interrupted :=
    host_async outside (trace s ++ [evLookup p]) "tmux" (interruptArgs p) in
  let typing := [EvTimeout 150;
                 EvSpawn "tmux" ["send-keys"; "-t"; p;
                                 "clear && " +:+ command; "Enter"]] in
  let mid := match interrupted with Close _ _ => typing | ErrorEvent => [] end in
  let late := match interrupted with Close _ _ => [] | ErrorEvent => typing end in
  match interrupted with
  | Close _ _ =>
      closedOk (host_async outside
                  (trace s ++ [evLookup p; evInterrupt p; EvTimeout 150])
                  "tmux" (runArgs p command)) = false
  | ErrorEvent => True
  end ->
  let pre := evLookup p :: evInterrupt p :: mid ++ [evClear] in
  let answer := host_async outside (trace s ++ pre) "tmux"
                  (splitArgs command) in
  exists s' tail,
    spawnTmux outside command s = (s', Returns (closedOk answer)) /\
    added s s' = pre ++ evSplit command :: tail /\
    scheduled s s' = late /\
    Creation answer (<[CANVAS_PANE_FILE := EmptyString]> (files s)) tail
      (files s') /\
    (closedOk answer = false -> registry s' = Some EmptyString).
Proof.
  intros Hconf Htruthy interrupted typing mid late Hfail pre answer.
  rewrite (spawnTmux_confirmed command s p Hconf Htruthy).
  rewrite reuseExistingPane_run. cbv zeta.
  change (trace (emit (evLookup p) s)) with (trace s ++ [evLookup p]).
  fold interrupted.
  assert (Hend : forall s2,
            trace s2 = trace s ++ pre ->
            pending s2 = pending s ++ late ->
            files s2 = <[CANVAS_PANE_FILE := EmptyString]> (files s) ->
            exists s' tail,
              createNewPane outside command s2
                = (s', Returns (closedOk answer)) /\
              added s s' = pre ++ evSplit command :: tail /\
              scheduled s s' = late /\
              Creation answer (<[CANVAS_PANE_FILE := EmptyString]> (files s))
                tail (files s') /\
              (closedOk answer = false -> registry s' = Some EmptyString)).
  { intros s2 Ht Hp Hf.
    destruct (createNewPane_creation outside command s2)
      as (s' & tail & Hrun & Htr & Hpend & Hc).
    rewrite Ht in Hrun, Hc. fold answer in Hrun, Hc. rewrite Hf in Hc.
    exists s', tail. split; [exact Hrun|]. split.
    { apply added_app. rewrite Htr, Ht, <- app_assoc. reflexivity. }
    split.
    { apply scheduled_app. rewrite Hpend. exact Hp. }
    split; [exact Hc|].
    intros Hno. unfold registry. unfold Creation in Hc.
    destruct answer as [code out|].
    - simpl in Hno. rewrite Hno in Hc. cbn [andb] in Hc.
      destruct Hc as [_ ->]. apply lookup_insert_eq.
    - destruct Hc as [_ ->]. apply lookup_insert_eq. }
  subst pre mid late. destruct interrupted as [code out|].
  - rewrite trace_after_interrupt, Hfail.
    apply Hend; [| |reflexivity].
    + simpl. rewrite <- !app_assoc. reflexivity.
    + simpl. symmetry. apply app_nil_r.
  - apply Hend; [| |reflexivity].
    + simpl. rewrite <- !app_assoc. reflexivity.
    + reflexivity.
Qed.

(** X3. A pane created by one dispatch is the pane the next dispatch
    reuses: the identifier saved is the trimmed output of the split
    request, the next validation reads it back unchanged, and when the
    host confirms it the keys go to that pane and no second pane is asked
    for. *)
Theorem created_pane_is_reused (first second : string) (s : State)
    (out : string) (r : SyncReturns) (code : option Z) (out' : string) :
  registry s = None ->
  host_async outside (trace s) "tmux" (splitArgs first)
    = Close (Some 0) out ->
  let p := Js.trim out in
  Js.truthy p = true ->
  let t := trace s ++ [evSplit first; evSave p] in
  read_fault outside t CANVAS_PANE_FILE = false ->
  host_sync outside t "tmux" (lookupArgs p) = SyncReturn r ->
  status r = Some 0 ->
  option_map Js.trim (stdout r) = Some p ->
  host_async outside (t ++ [evLookup p]) "tmux" (interruptArgs p)
    = Close code out' ->
  closedOk (host_async outside
              (t ++ [evLookup p; evInterrupt p; EvTimeout 150])
              "tmux" (runArgs p second)) = true ->
  exists s1 s2,
    spawnTmux outside first s = (s1, Returns true) /\
    added s s1 = [evSplit first; evSave p] /\
    spawnTmux outside second s1 = (s2, Returns true) /\
    added s1 s2 = [evLookup p; evInterrupt p; EvTimeout 150;
                   evRun p second] /\
    registry s2 = Some p.
Proof.
  intros Hreg Hsplit p Htruthy t Hread Hsync Hst Hout Hkill Hrun.
  set (s1 := fst (Bun_write CANVAS_PANE_FILE p (emit (evSplit first) s))).
  assert (Ht1 : trace s1 = t).
  { unfold s1, t. simpl. rewrite <- app_assoc. reflexivity. }
  assert (Hr1 : registry s1 = Some p).
  { unfold s1, registry. simpl. apply lookup_insert_eq. }
  assert (Hfirst : spawnTmux outside first s = (s1, Returns true)).
  { unfold spawnTmux, bind. rewrite getCanvasPaneId_run, Hreg.
    cbn [Js.truthy_opt]. rewrite createNewPane_run. cbv zeta.
    rewrite Hsplit. fold p. rewrite Htruthy. reflexivity. }
  assert (Hconf : Confirmed outside s1 p).
  { exists p, r. rewrite Ht1. split; [exact Hr1|].
    split; [unfold p; symmetry; apply trim_idem|].
    repeat split; assumption. }
  exists s1. eexists. split; [exact Hfirst|]. split.
  { apply added_app. rewrite Ht1. reflexivity. }
  rewrite (spawnTmux_confirmed second s1 p Hconf Htruthy).
  rewrite reuseExistingPane_run. cbv zeta.
  change (trace (emit (evLookup p) s1)) with (trace s1 ++ [evLookup p]).
  rewrite trace_after_interrupt, Ht1, Hkill, Hrun.
  split; [reflexivity|]. split.
  - apply added_app. simpl. rewrite <- !app_assoc. reflexivity.
  - exact Hr1.
Qed.

End Reuse.

(** ** What a dispatch in the multiplexer never does *)

Section Safety.

Variable outside : Outside.
Variable command : string.

Lemma creation_tail (answer : ChildOutcome) (base final : gmap string string)
    (tail : list Event) :
  Creation answer base tail final ->
  tail = [] \/ exists paneId, tail = [evSave paneId].
Proof.
  unfold Creation. destruct answer as [code out|].
  - destruct (isZero code && Js.truthy (Js.trim out));
      intros [-> _]; eauto.
  - intros [-> _]. auto.
Qed.

Lemma creation_files (answer : ChildOutcome) (base final : gmap string string)
    (tail : list Event) (path : string) :
  Creation answer base tail final ->
  path <> CANVAS_PANE_FILE ->
  final !! path = base !! path.
Proof.
  unfold Creation. intros Hc Hne. destruct answer as [code out|].
  - destruct (isZero code && Js.truthy (Js.trim out));
      destruct Hc as [_ ->]; [|reflexivity].
    apply lookup_insert_ne. congruence.
  - destruct Hc as [_ ->]. reflexivity.
Qed.

Lemma prelude_files (s : State) (pre late : list Event)
    (base : gmap string string) (path : string) :
  Prelude outside command s pre base late ->
  path <> CANVAS_PANE_FILE ->
  base !! path = files s !! path.
Proof.
  intros Hpre Hne.
  destruct Hpre; try reflexivity; apply lookup_insert_ne; congruence.
Qed.

(** The multiplexer adapter writes no file but the registry. *)
Lemma spawnTmux_frame (s : State) (path : string) :
  path <> CANVAS_PANE_FILE ->
  files (fst (spawnTmux outside command s)) !! path = files s !! path.
Proof.
  intros Hne.
  destruct (spawnTmux_routes outside command s)
    as (s' & b & evs & late & -> & _ & _ & Hroute).
  cbn [fst].
  destruct Hroute as [p code out s' _ _ _ _ Hf
                     | pre base late tail s' Hpre Hc].
  - rewrite Hf. reflexivity.
  - rewrite (creation_files _ _ _ _ path Hc Hne).
    apply (prelude_files s pre late); assumption.
Qed.

(** X4. Keys are sent only to a pane the host has just confirmed: every
    [send-keys] of a dispatch, those it leaves pending included, is the
    interrupt or the typing for the stored identifier, and that identifier
    is non-empty, was read from the registry and was echoed by a lookup
    with status 0 in this dispatch. *)
Theorem keys_only_to_confirmed_pane (s : State) (e : Event) :
  In e (added s (fst (spawnTmux outside command s))
        ++ scheduled s (fst (spawnTmux outside command s))) ->
  isSendKeys e = true ->
  exists p,
    Confirmed outside s p /\ Js.truthy p = true /\
    (e = EvSpawn "tmux" ["send-keys"; "-t"; p; "C-c"]
     \/ e = EvSpawn "tmux" ["send-keys"; "-t"; p;
                            "clear && " +:+ command; "Enter"]).
Proof.
  destruct (spawnTmux_routes outside command s)
    as (s' & b & evs & late & -> & Htr & Hpend & Hroute).
  cbn [fst]. rewrite (added_app _ _ _ Htr), (scheduled_app _ _ _ Hpend).
  clear Htr Hpend.
  intros Hin Hkeys.
  assert (Hnot : forall l, In e l -> existsb isSendKeys l = false -> False).
  { intros l Hl Hnone.
    assert (existsb isSendKeys l = true)
      by (apply existsb_exists; exists e; auto).
    congruence. }
  destruct Hroute as [p code out s' Hconf Htruthy _ _ _
                     | pre base late tail s' Hpre Hc].
  - exists p. split; [exact Hconf|]. split; [exact Htruthy|].
    rewrite app_nil_r in Hin.
    destruct Hin as [<-|[<-|[<-|[<-|[]]]]]; try discriminate; auto.
  - apply in_app_or in Hin as [Hin|Hin];
      [apply in_app_or in Hin as [Hin|Hin]|].
    + destruct Hpre as [ | | | | | p Hconf Htruthy _
                        | p code out Hconf Htruthy _ _];
        try (exfalso; apply (Hnot _ Hin); reflexivity).
      * exists p. split; [exact Hconf|]. split; [exact Htruthy|].
        destruct Hin as [<-|[<-|[<-|[]]]]; try discriminate; auto.
      * exists p. split; [exact Hconf|]. split; [exact Htruthy|].
        destruct Hin as [<-|[<-|[<-|[<-|[<-|[]]]]]];
          try discriminate; auto.
    + exfalso. apply (Hnot _ Hin).
      destruct (creation_tail _ _ _ _ Hc) as [-> | (paneId & ->)];
        reflexivity.
    + destruct Hpre as [ | | | | | p Hconf Htruthy _ | ];
        try (destruct Hin; fail).
      exists p. split; [exact Hconf|]. split; [exact Htruthy|].
      destruct Hin as [<-|[<-|[]]]; try discriminate; auto.
Qed.

(** X5. A dispatch starts at most four tmux processes, counting what it
    leaves pending: at most one lookup, at most two [send-keys] and at
    most one split request; and a dispatch that asks for no new pane has
    succeeded by reuse. *)
Theorem spawnTmux_process_bounds (s : State) :
  let s' := fst (spawnTmux outside command s) in
  let evs := added s s' ++ scheduled s s' in
  (countIf isLookup evs <= 1)%nat /\
  (countIf isSendKeys evs <= 2)%nat /\
  (countIf isSplit evs <= 1)%nat /\
  (countIf isProcess evs <= 4)%nat /\
  (countIf isSplit evs = 0%nat ->
   snd (spawnTmux outside command s) = Returns true).
Proof.
  destruct (spawnTmux_routes outside command s)
    as (s' & b & evs & late & -> & Htr & Hpend & Hroute).
  cbn [fst snd]. cbv zeta.
  rewrite (added_app _ _ _ Htr), (scheduled_app _ _ _ Hpend).
  clear Htr Hpend.
  destruct Hroute as [p code out s' _ _ _ _ _
                     | pre base late tail s' Hpre Hc].
  - unfold countIf. simpl. repeat split; lia.
  - destruct (creation_tail _ _ _ _ Hc) as [-> | (paneId & ->)];
      destruct Hpre; unfold countIf; simpl; repeat split;
        try lia; discriminate.
Qed.

(** X6. A dispatch that fails leaves no reference behind: when reading the
    registry does not fail and the lookup does not throw, the registry
    after a failed dispatch is absent, empty or blank. *)
Theorem failed_dispatch_leaves_no_reference (s s' : State) :
  spawnTmux outside command s = (s', Returns false) ->
  read_fault outside (trace s) CANVAS_PANE_FILE = false ->
  (forall c, registry s = Some c ->
             host_sync outside (trace s) "tmux" (lookupArgs (Js.trim c))
             <> SyncThrows) ->
  registryBlank s' = true.
Proof.
  intros Hrun Hread Hsync.
  destruct (spawnTmux_routes outside command s)
    as (s1 & b & evs & late & Hrun' & _ & _ & Hroute).
  assert (Hb : b = false) by congruence.
  assert (Hs : s1 = s') by congruence.
  clear Hrun Hrun'. revert Hb Hs.
  destruct Hroute as [p code out s1 _ _ _ _ _
                     | pre base late tail s1 Hpre Hc];
    [discriminate|].
  intros Hb ->.
  assert (Hfinal : files s' = base).
  { unfold Creation in Hc.
    destruct (host_async outside (trace s ++ pre) "tmux" (splitArgs command))
      as [code out|]; [|apply Hc].
    simpl in Hb. rewrite Hb in Hc. apply Hc. }
  unfold registryBlank, registry. rewrite Hfinal.
  destruct Hpre as [Hreg | c Hreg Hfault | c Hreg _ Hthrown | p Hconf Hemp
                   | | | ];
    try (rewrite lookup_insert_eq; reflexivity).
  - unfold registry in Hreg. rewrite Hreg. reflexivity.
  - congruence.
  - exfalso. apply (Hsync c Hreg Hthrown).
  - destruct Hconf as (c & r & Hreg & -> & _).
    unfold registry in Hreg. rewrite Hreg.
    apply truthy_false in Hemp. rewrite Hemp. reflexivity.
Qed.

End Safety.

(** ** spawnCanvas: files, outcomes and edge inputs *)

Lemma prepared_files (id : string) (configJson : option string) (s : State) :
  files (prepared id configJson s) =
    if Js.truthy_opt configJson
    then <[configFile id := default EmptyString configJson]> (files s)
    else files s.
Proof.
  unfold prepared, writeConfig. destruct configJson as [json|]; [|reflexivity].
  cbn [Js.truthy_opt]. destruct (Js.truthy json); reflexivity.
Qed.

Lemma starts_isProcess (file : string) (l : list Event) :
  existsb (starts file) l = true -> existsb isProcess l = true.
Proof.
  rewrite !existsb_exists. intros (e & Hin & He). exists e. split; [exact Hin|].
  destruct e; simpl in *; congruence.
Qed.

Section CanvasMore.

Variable proc : Process.
Variable outside : Outside.
Variables kind id : string.
Variable configJson : option string.
Variable options : option SpawnOptions.

(** X7. Files.  A run of [spawnCanvas] changes no file other than the
    configuration file of its id and the registry; a non-empty
    configuration is on disk, unchanged, when the run ends, whatever the
    outcome; and a run that starts no tmux process leaves the registry as
    it was. *)
Theorem spawnCanvas_files (s : State) :
  let s' := fst (spawnCanvas proc outside kind id configJson options s) in
  (forall path,
      path <> CANVAS_PANE_FILE -> path <> configFile id ->
      files s' !! path = files s !! path) /\
  files s' !! configFile id
    = (if Js.truthy_opt configJson then configJson
       else files s !! configFile id) /\
  (existsb (starts "tmux") (added s s') = false ->
   registry s' = registry s).
Proof.
  cbv zeta. rewrite spawnCanvas_run. cbv zeta.
  set (command := commandOf proc kind id configJson options).
  set (s1 := prepared id configJson s).
  set (script := EvSpawn "osascript" ["-e"; ghosttyScript command]).
  assert (Hcfg : forall path, path <> configFile id ->
                              files s1 !! path = files s !! path).
  { intros path Hne. unfold s1. rewrite prepared_files.
    destruct (Js.truthy_opt configJson); [|reflexivity].
    apply lookup_insert_ne. congruence. }
  assert (Hjson : files s1 !! configFile id
                  = if Js.truthy_opt configJson then configJson
                    else files s !! configFile id).
  { unfold s1. rewrite prepared_files.
    destruct configJson as [json|]; [|reflexivity].
    cbn [Js.truthy_opt]. destruct (Js.truthy json); [|reflexivity].
    apply lookup_insert_eq. }
  assert (Ht1 : exists cfg, trace s1 = trace s ++ cfg
                            /\ existsb (starts "tmux") cfg = false).
  { destruct (writeConfig_shape id configJson s) as (_ & _ & cfg & Ht & Hc).
    exists cfg. split; [exact Ht|].
    destruct Hc as [-> | (json & ->)]; reflexivity. }
  destruct Ht1 as (cfg & Ht1 & Hcfgt).
  assert (Hreg1 : registry s1 = registry s).
  { apply Hcfg. intros H. symmetry in H.
    exact (configFile_not_registry id H). }
  (* a state [s2] with the files of [s1], reached by [mid] *)
  assert (Hvia : forall s2 mid,
            files s2 = files s1 -> trace s2 = trace s1 ++ mid ->
            let s' := fst (if inTmux (detectTerminal proc)
                           then match spawnTmux outside command s2 with
                                | (s3, Returns true) =>
                                    (s3, Returns {| method := "tmux";
                                                    pid := None |})
                                | (s3, Returns false) =>
                                    (s3, Throws (Error unsupportedMessage))
                                | (s3, Throws e) => (s3, Throws e)
                                end
                           else (s2, Throws (Error unsupportedMessage))) in
            (forall path,
                path <> CANVAS_PANE_FILE -> path <> configFile id ->
                files s' !! path = files s !! path) /\
            files s' !! configFile id
              = (if Js.truthy_opt configJson then configJson
                 else files s !! configFile id) /\
            (existsb (starts "tmux") (added s s') = false ->
             registry s' = registry s)).
  { intros s2 mid Hf2 Ht2. cbv zeta.
    destruct (inTmux (detectTerminal proc)).
    - pose proof (spawnTmux_frame outside command s2) as Hframe.
      destruct (spawnTmux_shape outside command s2)
        as (s3 & b & evs & Hrun & Htr & Htmux & _).
      rewrite Hrun in Hframe |- *. cbn [fst] in Hframe.
      destruct b; cbn [fst]; (split; [|split]).
      all: try (intros path Hp Hc; rewrite (Hframe path Hp), Hf2;
                apply Hcfg; exact Hc).
      all: try (rewrite (Hframe (configFile id)
                           (configFile_not_registry id)), Hf2;
                exact Hjson).
      all: intros Hnone; exfalso;
        rewrite (added_app s s3 (cfg ++ mid ++ evs)) in Hnone
          by (rewrite Htr, Ht2, Ht1, <- !app_assoc; reflexivity);
        rewrite !existsb_app, Htmux, !orb_true_r in Hnone;
        discriminate.
    - cbn [fst]. split; [|split].
      + intros path _ Hc. rewrite Hf2. apply Hcfg. exact Hc.
      + rewrite Hf2. exact Hjson.
      + intros _. unfold registry. rewrite Hf2. exact Hreg1. }
  destruct (inGhostty (detectTerminal proc) && isMacOS (detectTerminal proc)).
  - destruct (closedOk _).
    + cbn [fst]. split; [|split].
      * intros path _ Hc. apply Hcfg. exact Hc.
      * exact Hjson.
      * intros _. exact Hreg1.
    + apply (Hvia (emit script s1) [script]); reflexivity.
  - apply (Hvia s1 []); [reflexivity|]. symmetry. apply app_nil_r.
Qed.

(** X8. What a returned method tells.  [spawnCanvas] returns no method
    but ghostty and tmux.  Method ghostty is returned only on ghostty on
    darwin and only after the GUI automation closed with exit code 0;
    method tmux is returned only with the TMUX marker and only when the
    GUI automation was not tried or did not close with exit code 0. *)
Theorem spawnCanvas_method (s : State) :
  let env := detectTerminal proc in
  let command := commandOf proc kind id configJson options in
  let guiOk :=
    inGhostty env && isMacOS env
    && closedOk (host_async outside (trace (prepared id configJson s))
                   "osascript" ["-e"; ghosttyScript command]) in
  match snd (spawnCanvas proc outside kind id configJson options s) with
  | Returns r =>
      r = {| method := "ghostty"; pid := None |} /\ guiOk = true
      \/ r = {| method := "tmux"; pid := None |}
         /\ inTmux env = true /\ guiOk = false
  | Throws _ => True
  end.
Proof.
  intros env command guiOk. rewrite spawnCanvas_run.
  fold env command. cbv zeta.
  assert (Hvia : forall s2,
            guiOk = false ->
            match snd (if inTmux env
                       then match spawnTmux outside command s2 with
                            | (s3, Returns true) =>
                                (s3, Returns {| method := "tmux";
                                                pid := None |})
                            | (s3, Returns false) =>
                                (s3, Throws (Error unsupportedMessage))
                            | (s3, Throws e) => (s3, Throws e)
                            end
                       else (s2, Throws (Error unsupportedMessage))) with
            | Returns r =>
                r = {| method := "ghostty"; pid := None |} /\ guiOk = true
                \/ r = {| method := "tmux"; pid := None |}
                   /\ inTmux env = true /\ guiOk = false
            | Throws _ => True
            end).
  { intros s2 Hno. destruct (inTmux env); [|exact I].
    destruct (spawnTmux_shape outside command s2)
      as (s3 & b & evs & -> & _).
    destruct b; cbn [snd]; auto. }
  unfold guiOk in *. clear guiOk.
  destruct (inGhostty env && isMacOS env); [|apply Hvia; reflexivity].
  destruct (closedOk _); [|apply Hvia; reflexivity].
  cbn [snd]. auto.
Qed.

(** X9. Detection and dispatch agree: a run of [spawnCanvas] starts a
    process exactly when the summary of [detectTerminal] is not
    unsupported. *)
Theorem spawnCanvas_starts_process_iff_supported (s : State) :
  existsb isProcess
    (added s (fst (spawnCanvas proc outside kind id configJson options s)))
  = negb (strEq (summary (detectTerminal proc)) "unsupported").
Proof.
  rewrite spawnCanvas_run, summary_cases. cbv zeta.
  set (command := commandOf proc kind id configJson options).
  set (s1 := prepared id configJson s).
  set (script := EvSpawn "osascript" ["-e"; ghosttyScript command]).
  destruct (writeConfig_shape id configJson s) as (_ & _ & cfg & Ht1 & Hc).
  fold s1 in Ht1.
  assert (Hcfg : existsb isProcess cfg = false)
    by (destruct Hc as [-> | (json & ->)]; reflexivity).
  assert (Hvia : forall s2 mid,
            trace s2 = trace s1 ++ mid ->
            existsb isProcess
              (added s
                 (fst (match spawnTmux outside command s2 with
                       | (s3, Returns true) =>
                           (s3, Returns {| method := "tmux"; pid := None |})
                       | (s3, Returns false) =>
                           (s3, Throws (Error unsupportedMessage))
                       | (s3, Throws e) => (s3, Throws e)
                       end))) = true).
  { intros s2 mid Ht2.
    destruct (spawnTmux_shape outside command s2)
      as (s3 & b & evs & -> & Htr & Htmux & _).
    apply starts_isProcess in Htmux.
    replace (fst _) with s3 by (destruct b; reflexivity).
    rewrite (added_app s s3 (cfg ++ mid ++ evs))
      by (rewrite Htr, Ht2, Ht1, <- !app_assoc; reflexivity).
    rewrite !existsb_app, Htmux, !orb_true_r. reflexivity. }
  destruct (inGhostty (detectTerminal proc) && isMacOS (detectTerminal proc)).
  - assert (Hscript : existsb isProcess
                        (added s (emit script s1)) = true).
    { rewrite (added_app s (emit script s1) (cfg ++ [script]))
        by (simpl; rewrite Ht1, <- app_assoc; reflexivity).
      rewrite existsb_app. simpl. apply orb_true_r. }
    destruct (closedOk _); [exact Hscript|].
    destruct (inTmux (detectTerminal proc)); [|exact Hscript].
    apply (Hvia (emit script s1) [script]). reflexivity.
  - destruct (inTmux (detectTerminal proc)).
    + apply (Hvia s1 []). symmetry. apply app_nil_r.
    + cbn [fst]. rewrite (added_app s s1 cfg Ht1). exact Hcfg.
Qed.

(** X10. Empty strings count as absent: an empty configuration, an empty
    socket path and an empty scenario each give the run that leaving the
    argument out gives, and an options object without fields gives the run
    without options. *)
Theorem empty_arguments_are_absent (s : State) :
  spawnCanvas proc outside kind id (Some EmptyString) options s
    = spawnCanvas proc outside kind id None options s /\
  (forall sc,
      spawnCanvas proc outside kind id configJson
        (Some {| socketPath := Some EmptyString; scenario := sc |}) s
      = spawnCanvas proc outside kind id configJson
          (Some {| socketPath := None; scenario := sc |}) s) /\
  (forall sp,
      spawnCanvas proc outside kind id configJson
        (Some {| socketPath := sp; scenario := Some EmptyString |}) s
      = spawnCanvas proc outside kind id configJson
          (Some {| socketPath := sp; scenario := None |}) s) /\
  spawnCanvas proc outside kind id configJson
    (Some {| socketPath := None; scenario := None |}) s
  = spawnCanvas proc outside kind id configJson None s.
Proof. repeat split. Qed.

End CanvasMore.

(** ** The typed command and the script path *)

(** X11. The escaping leaves a command as it is exactly when the command
    holds neither a double quote nor a backslash; it never shortens a
    command. *)
Theorem escapeKeystroke_plain_iff (command : string) :
  (escapeKeystroke command = command <->
   occurrences (ascii_of_nat 34) command = 0%nat
   /\ occurrences (ascii_of_nat 92) command = 0%nat) /\
  (String.length command <= String.length (escapeKeystroke command))%nat.
Proof.
  split; [|rewrite escapeKeystroke_length; lia].
  split.
  - intros H. apply (f_equal String.length) in H.
    rewrite escapeKeystroke_length in H. lia.
  - induction command as [|a r IH]; [reflexivity|].
    cbn [occurrences]. intros [Hq Hb].
    destruct (Ascii.eqb a (ascii_of_nat 34)) eqn:Eq; [discriminate|].
    destruct (Ascii.eqb a (ascii_of_nat 92)) eqn:Eb; [discriminate|].
    rewrite escapeKeystroke_step, Eq, Eb, IH by (split; assumption).
    reflexivity.
Qed.

Lemma replaceFirst_absent (pat rep s : string) :
  contains pat s = false -> Js.replaceFirst pat rep s = s.
Proof.
  induction s as [|c r IH]; cbn [contains Js.replaceFirst];
    intros H; apply orb_false_elim in H as [H1 H2]; rewrite H1.
  - reflexivity.
  - rewrite (IH H2). reflexivity.
Qed.

(** When ["/src"] follows a non-empty text that does not begin with
    ["/src"], the whole does not begin with ["/src"] either: no occurrence
    straddles the boundary. *)
Lemma startsWith_src_before (a rest : string) :
  a <> EmptyString ->
  Js.startsWith "/src" a = false ->
  Js.startsWith "/src" (a +:+ "/src" +:+ rest) = false.
Proof.
  intros Hne H.
  change ("/src" +:+ rest)
    with (String "/" (String "s" (String "r" (String "c" rest)))).
  destruct a as [|c1 [|c2 [|c3 [|c4 a]]]]; [congruence|..];
    rewrite ?append_cons; cbn [Js.startsWith] in *.
  - change (EmptyString +:+ String "/" (String "s" (String "r"
              (String "c" rest))))
      with (String "/" (String "s" (String "r" (String "c" rest)))).
    cbn [Js.startsWith].
    change (Ascii.eqb "s" "/") with false.
    rewrite andb_false_r. reflexivity.
  - change (EmptyString +:+ String "/" (String "s" (String "r"
              (String "c" rest))))
      with (String "/" (String "s" (String "r" (String "c" rest)))).
    cbn [Js.startsWith].
    change (Ascii.eqb "r" "/") with false.
    rewrite !andb_false_r. reflexivity.
  - change (EmptyString +:+ String "/" (String "s" (String "r"
              (String "c" rest))))
      with (String "/" (String "s" (String "r" (String "c" rest)))).
    cbn [Js.startsWith].
    change (Ascii.eqb "c" "/") with false.
    rewrite !andb_false_r. reflexivity.
  - exact H.
Qed.

Lemma replaceFirst_src (a rest : string) :
  contains "/src" a = false ->
  Js.replaceFirst "/src" EmptyString (a +:+ "/src" +:+ rest) = a +:+ rest.
Proof.
  induction a as [|c a IH]; intros H.
  - reflexivity.
  - cbn [contains] in H. apply orb_false_elim in H as [H1 H2].
    pose proof (startsWith_src_before (String c a) rest
                  ltac:(discriminate) H1) as Hs.
    rewrite !append_cons in *.
    cbn [Js.replaceFirst]. rewrite Hs, (IH H2). reflexivity.
Qed.

(** X12. The script path is the module directory without its first
    ["/src"], followed by ["/run-canvas.sh"]: a directory that holds no
    ["/src"] is kept whole, and of several the first is the one dropped,
    not the last. *)
Theorem runScript_drops_first_src (proc : Process) :
  (contains "/src" (import_meta_dir proc) = false ->
   runScript proc = import_meta_dir proc +:+ "/run-canvas.sh") /\
  (forall a rest,
      import_meta_dir proc = a +:+ "/src" +:+ rest ->
      contains "/src" a = false ->
      runScript proc = (a +:+ rest) +:+ "/run-canvas.sh").
Proof.
  unfold runScript. split.
  - intros H. rewrite (replaceFirst_absent _ _ _ H). reflexivity.
  - intros a rest -> H. rewrite (replaceFirst_src a rest H). reflexivity.
Qed.

(** ** A creation that prints no identifier *)

(** X13. A split request that closes with exit code 0 but prints only
    white space counts as a success and saves nothing; with no registry
    file before, there is none after, so the next dispatch looks nothing
    up and begins by asking for another pane. *)
Theorem unnamed_pane_is_not_remembered (outside : Outside)
    (first second : string) (s : State) (out : string) :
  registry s = None ->
  host_async outside (trace s) "tmux" (splitArgs first)
    = Close (Some 0) out ->
  Js.truthy (Js.trim out) = false ->
  exists s1 s2 b tail,
    spawnTmux outside first s = (s1, Returns true) /\
    added s s1 = [evSplit first] /\
    files s1 = files s /\
    spawnTmux outside second s1 = (s2, Returns b) /\
    added s1 s2 = evSplit second :: tail /\
    existsb isProcess tail = false.
Proof.
  intros Hreg Hsplit Hblank.
  set (s1 := emit (evSplit first) s).
  assert (Hfirst : spawnTmux outside first s = (s1, Returns true)).
  { unfold spawnTmux, bind. rewrite getCanvasPaneId_run, Hreg.
    cbn [Js.truthy_opt]. rewrite createNewPane_run. cbv zeta.
    rewrite Hsplit, Hblank. reflexivity. }
  assert (Hreg1 : registry s1 = None) by exact Hreg.
  destruct (createNewPane_shape outside second s1)
    as (s2 & tail & Hrun & Htr & Htail & _).
  exists s1, s2. eexists. exists tail.
  split; [exact Hfirst|]. split; [apply added_app; reflexivity|].
  split; [reflexivity|]. split.
  { unfold spawnTmux, bind. rewrite getCanvasPaneId_run, Hreg1.
    cbn [Js.truthy_opt]. exact Hrun. }
  split; [apply added_app; exact Htr | exact Htail].
Qed.

(** ** The further properties at sample surroundings *)



(** X2, at a live pane when the interrupt cannot be started. *)
Lemma spawnTmux_reuse_failed_witness :
  let o := Sample.tmuxWithoutKeys ["%3"] "%0" (Sample.created "%7") in
  let s := Sample.holding "%3" in
  let typing := [EvTimeout 150;
                 EvSpawn "tmux" ["send-keys"; "-t"; "%3";
                                 "clear && run"; "Enter"]] in
  let pre := [evLookup "%3"; evInterrupt "%3"; evClear] in
  let answer := host_async o (trace s ++ pre) "tmux" (splitArgs "run") in
  (Confirmed o s "%3" /\ Js.truthy "%3" = true) /\
  exists s' tail,
    spawnTmux o "run" s = (s', Returns (closedOk answer)) /\
    added s s' = pre ++ evSplit "run" :: tail /\
    scheduled s s' = typing /\
    Creation answer (<[CANVAS_PANE_FILE := EmptyString]> (files s)) tail
      (files s') /\
    (closedOk answer = false -> registry s' = Some EmptyString).
Proof.
  intros o s typing pre answer.
  assert (Hc : Confirmed o s "%3").
  { exists "%3", {| status := Some 0; stdout := Some ("%3" +:+ Js.nl) |}.
    repeat split. }
  split; [split; [exact Hc | reflexivity]|].
  apply (spawnTmux_reuse_failed o "run" s "%3" Hc); reflexivity.
Defined.

(** X3, at two dispatches in a row. *)
Lemma created_pane_is_reused_witness :
  let o := Sample.tmuxLike ["%7"] "%0" (Sample.created "%7")
             Sample.refused 0 in
  let s := Sample.fresh in
  registry s = None /\
  exists s1 s2,
    spawnTmux o "first" s = (s1, Returns true) /\
    added s s1 = [evSplit "first"; evSave "%7"] /\
    spawnTmux o "second" s1 = (s2, Returns true) /\
    added s1 s2 = [evLookup "%7"; evInterrupt "%7"; EvTimeout 150;
                   evRun "%7" "second"] /\
    registry s2 = Some "%7".
Proof.
  intros o s. split; [reflexivity|].
  apply (created_pane_is_reused o "first" "second" s ("%7" +:+ Js.nl)
           {| status := Some 0; stdout := Some ("%7" +:+ Js.nl) |}
           (Some 0) EmptyString); reflexivity.
Defined.

(** X4, at the typing left pending when the interrupt cannot be
    started. *)
Lemma keys_only_to_confirmed_pane_witness :
  let o := Sample.tmuxWithoutKeys ["%3"] "%0" (Sample.created "%7") in
  let s := Sample.holding "%3" in
  let e := EvSpawn "tmux" ["send-keys"; "-t"; "%3"; "clear && run";
                           "Enter"] in
  (In e (added s (fst (spawnTmux o "run" s))
         ++ scheduled s (fst (spawnTmux o "run" s)))
   /\ isSendKeys e = true) /\
  exists p,
    Confirmed o s p /\ Js.truthy p = true /\
    (e = EvSpawn "tmux" ["send-keys"; "-t"; p; "C-c"]
     \/ e = EvSpawn "tmux" ["send-keys"; "-t"; p; "clear && " +:+ "run";
                            "Enter"]).
Proof.
  intros o s e.
  assert (H1 : In e (added s (fst (spawnTmux o "run" s))
                     ++ scheduled s (fst (spawnTmux o "run" s))))
    by (vm_compute; tauto).
  assert (H2 : isSendKeys e = true) by reflexivity.
  split; [split; assumption|].
  exact (keys_only_to_confirmed_pane o "run" s e H1 H2).
Defined.

(** X6, at a stale reference and a host that refuses the split. *)
Lemma failed_dispatch_leaves_no_reference_witness :
  let o := Sample.tmuxLike [] "%0" Sample.refused Sample.refused 0 in
  let s := Sample.holding "%3" in
  let s' := fst (spawnTmux o "run" s) in
  spawnTmux o "run" s = (s', Returns false) /\
  registryBlank s' = true.
Proof.
  intros o s s'.
  assert (H1 : spawnTmux o "run" s = (s', Returns false))
    by (vm_compute; reflexivity).
  assert (H2 : read_fault o (trace s) CANVAS_PANE_FILE = false)
    by reflexivity.
  assert (H3 : forall c, registry s = Some c ->
                 host_sync o (trace s) "tmux" (lookupArgs (Js.trim c))
                 <> SyncThrows).
  { intros c Hc. vm_compute in Hc. injection Hc as <-.
    vm_compute. discriminate. }
  split; [exact H1|].
  exact (failed_dispatch_leaves_no_reference o "run" s s' H1 H2 H3).
Defined.

(** X12, at a checkout below a directory that is itself named [src]. *)
Lemma runScript_drops_first_src_witness :
  let proc := {| env_TMUX := None; env_TERM_PROGRAM := None;
                 platform := "linux";
                 import_meta_dir := "/home/dev/src/canvas/src" |} in
  contains "/src" "/home/dev" = false /\
  runScript proc = "/home/dev/canvas/src/run-canvas.sh".
Proof.
  intros proc. split; [reflexivity|].
  exact (proj2 (runScript_drops_first_src proc) "/home/dev" "/canvas/src"
           eq_refl eq_refl).
Defined.

(** X13, at a host that creates panes without naming them. *)
Lemma unnamed_pane_is_not_remembered_witness :
  let o := Sample.tmuxLike [] "%0" (Sample.created " ") Sample.refused 0 in
  let s := Sample.fresh in
  (registry s = None /\
   host_async o (trace s) "tmux" (splitArgs "first")
     = Close (Some 0) (" " +:+ Js.nl) /\
   Js.truthy (Js.trim (" " +:+ Js.nl)) = false) /\
  exists s1 s2 b tail,
    spawnTmux o "first" s = (s1, Returns true) /\
    added s s1 = [evSplit "first"] /\
    files s1 = files s /\
    spawnTmux o "second" s1 = (s2, Returns b) /\
    added s1 s2 = evSplit "second" :: tail /\
    existsb isProcess tail = false.
Proof.
  intros o s. split; [repeat split|].
  apply (unnamed_pane_is_not_remembered o "first" "second" s
           (" " +:+ Js.nl)); reflexivity.
Defined.
